(** * Room chat server: message store and Socket.IO handlers

    A shallow embedding of [message_server.py] (class [MessageServer]) and of
    the [message] and [join] handlers of [socketio_server.py], with the
    properties of the room history that the design document states.

    Python objects are embedded as a universe of JSON-shaped values, the
    methods as computations in a state-and-exception monad whose state
    survives a raised exception, as the attributes of a Python object do. *)

From Stdlib Require Import ZArith String Floats.SpecFloat.
From stdpp Require Import gmap strings list fin_maps.

Set Warnings "-register-all".

(** ** Python values

    What [json.load] and the Socket.IO transport can hand to the program:
    [None], booleans, integers, floats, strings, lists and dictionaries with
    string keys.  Equality of dictionaries ignores insertion order, as
    Python's does. *)

Inductive value : Type :=
  | VNone
  | VBool (b : bool)
  | VInt (z : Z)
  | VFloat (f : spec_float)
  | VStr (s : string)
  | VList (l : list value)
  | VDict (d : gmap string value).

(** Truth value of an object, as tested by [if x] and [not x]. *)
Definition truthy (v : value) : bool :=
  match v with
  | VNone => false
  | VBool b => b
  | VInt z => negb (z =? 0)%Z
  | VFloat (S754_zero _) => false
  | VFloat _ => true
  | VStr s => negb (String.eqb s "")
  | VList l => negb (Nat.eqb (length l) 0)
  | VDict d => negb (Nat.eqb (size d) 0)
  end.

(** The exception classes the program meets; all derive from [Exception]. *)
Inductive exn : Type :=
  | KeyError
  | TypeError
  | AttributeError
  | OSError
  | UnicodeDecodeError
  | RecursionError
  | JSONDecodeError.

(** Result of running a piece of Python.  [Stuck] marks an input outside the
    embedding: a room that is not a string, against the annotation
    [room: str] of [MessageServer]. *)
Inductive outcome (A : Type) : Type :=
  | Ok (a : A)
  | Raise (e : exn)
  | Stuck.
Arguments Ok {A} a.
Arguments Raise {A} e.
Arguments Stuck {A}.

(** ** Operations on values, with a string key *)

(** [k in v] *)
Definition py_contains (v : value) (k : string) : outcome bool :=
  match v with
  | VDict d => Ok (bool_decide (is_Some (d !! k)))
  | VList l =>
      Ok (existsb (fun x => match x with VStr s => String.eqb s k | _ => false end) l)
  | VStr s => Ok (bool_decide (is_Some (String.index 0 k s)))
  | _ => Raise TypeError
  end.

(** [v[k]] *)
Definition py_getitem (v : value) (k : string) : outcome value :=
  match v with
  | VDict d => match d !! k with Some x => Ok x | None => Raise KeyError end
  | _ => Raise TypeError
  end.

(** [v[k] = x], giving the updated object *)
Definition py_setitem (v : value) (k : string) (x : value) : outcome value :=
  match v with
  | VDict d => Ok (VDict (<[k := x]> d))
  | _ => Raise TypeError
  end.

(** [v.get(k, dflt)] *)
Definition py_get (v : value) (k : string) (dflt : value) : outcome value :=
  match v with
  | VDict d => Ok (default dflt (d !! k))
  | _ => Raise AttributeError
  end.

(** [len(v)].  The program takes the length of a room's log only; on a
    string or a dictionary found in its place the [append] that follows
    raises, and the number is not used. *)
Definition py_len (v : value) : outcome nat :=
  match v with
  | VList l => Ok (length l)
  | VStr s => Ok (String.length s)
  | VDict d => Ok (size d)
  | _ => Raise TypeError
  end.

(** [v.append(x)], giving the updated object *)
Definition py_append (v x : value) : outcome value :=
  match v with
  | VList l => Ok (VList (l ++ [x]))
  | _ => Raise AttributeError
  end.

(** ** The libraries the program calls

    [json.dump] and [json.load] are taken through their contract: a dumped
    object loads back as itself, and text that is no JSON document fails to
    load ([JSONDecodeError]).  [py_str] is [str()], used by the f-strings. *)
Class PyRuntime : Type := {
  text : Type;
  json_dump : value -> text;
  json_load : text -> option value;
  json_load_dump : forall v, json_load (json_dump v) = Some v;
  py_str : value -> string;
  py_str_str : forall s, py_str (VStr s) = s;
}.

(** A runtime to compute with: a file holds a JSON document, or bytes that
    are none. *)
Definition doc_str (v : value) : string :=
  match v with VStr s => s | _ => "<object>" end.

Definition doc_runtime : PyRuntime := {|
  text := option value;
  json_dump := Some;
  json_load := fun t => t;
  json_load_dump := fun v => eq_refl;
  py_str := doc_str;
  py_str_str := fun s => eq_refl;
|}.

(** Connections are named by the transport; the embedding keeps these names
    apart from the room names that clients choose. *)
Definition sid : Type := nat.

(** An event handed to the transport: its name, its payload and the
    connections it goes to. *)
Record delivery : Type := Delivery {
  event : string;
  payload : value;
  dest : gset sid;
}.

(** What the two loggers are asked to record. *)
Inductive log_entry : Type :=
  | log_invalid_json
  | log_load_error (e : exn)
  | log_save_error (e : exn)
  | log_no_room
  | log_invalid_format
  | log_message_received (room data : value)
  | log_message_error (e : exn)
  | log_joined (name room : value)
  | log_join_error (e : exn).

Section Server.
Context {rt : PyRuntime}.

(** The state of the process and of its one file. *)
Record server : Type := Server {
  messages : value;                  (* message_server.messages *)
  message_file : option text;        (* content of the file, None: no file *)
  log : list log_entry;
  rooms : gmap string (gset sid);    (* room membership kept by Flask-SocketIO *)
  outbox : list delivery;
}.

Definition set_messages (v : value) (s : server) : server :=
  Server v (message_file s) (log s) (rooms s) (outbox s).
Definition set_message_file (f : option text) (s : server) : server :=
  Server (messages s) f (log s) (rooms s) (outbox s).
Definition add_log (e : log_entry) (s : server) : server :=
  Server (messages s) (message_file s) (log s ++ [e]) (rooms s) (outbox s).
Definition set_rooms (r : gmap string (gset sid)) (s : server) : server :=
  Server (messages s) (message_file s) (log s) r (outbox s).
Definition add_outbox (d : delivery) (s : server) : server :=
  Server (messages s) (message_file s) (log s) (rooms s) (outbox s ++ [d]).

(** ** The monad *)

Definition M (A : Type) : Type := server -> outcome A * server.

Definition ret {A} (a : A) : M A := fun s => (Ok a, s).

Definition bind {A B} (m : M A) (f : A -> M B) : M B :=
  fun s =>
    match m s with
    | (Ok a, s') => f a s'
    | (Raise e, s') => (Raise e, s')
    | (Stuck, s') => (Stuck, s')
    end.

Definition lift {A} (r : outcome A) : M A := fun s => (r, s).

Definition raise {A} (e : exn) : M A := lift (Raise e).

(** [try: body except Exception as e: handler(e)]; the handler starts from
    the state the body left. *)
Definition try_except {A} (body : M A) (handler : exn -> M A) : M A :=
  fun s =>
    match body s with
    | (Raise e, s') => handler e s'
    | r => r
    end.

Definition gets {A} (f : server -> A) : M A := fun s => (Ok (f s), s).
Definition modify (f : server -> server) : M unit := fun s => (Ok tt, f s).

Definition when (b : bool) (m : M unit) : M unit := if b then m else ret tt.

End Server.

Declare Scope py_scope.
Delimit Scope py_scope with py.
Notation "x <- c ;; k" := (bind c (fun x => k))
  (at level 100, c at next level, right associativity) : py_scope.
Notation "c ;;; k" := (bind c (fun _ => k))
  (at level 100, right associativity) : py_scope.
Notation "'try' body 'except_' h" := (try_except body h)
  (at level 100, body at level 100, h at level 100) : py_scope.
Open Scope py_scope.

Section MessageServer.
Context {rt : PyRuntime}.

(** ** message_server.py *)

(** How reading the file goes: [open] or [read] may raise. *)
Inductive read_outcome : Type :=
  | ReadOk
  | ReadFails (e : exn).

(** How writing the file goes.  [open(..., "w")] may raise and leave the file
    alone; once it has truncated the file, a failing write leaves some text
    [partial] behind. *)
Inductive write_outcome : Type :=
  | WriteOk
  | OpenFails (e : exn)
  | DumpFails (e : exn) (partial : text).

(** [with open(self.message_file, "r") as f: return json.load(f)] *)
Definition read_json (r : read_outcome) : M value :=
  fun s =>
    match r, message_file s with
    | ReadFails e, _ => (Raise e, s)
    | ReadOk, None => (Raise OSError, s)
    | ReadOk, Some t =>
        match json_load t with
        | Some v => (Ok v, s)
        | None => (Raise JSONDecodeError, s)
        end
    end.

Definition _load_all_messages (r : read_outcome) : M value :=
  file_exists <- gets (fun s => bool_decide (is_Some (message_file s))) ;;
  if file_exists then
    try read_json r
    except_ (fun e =>
      match e with
      | JSONDecodeError => modify (add_log log_invalid_json) ;;; ret (VDict ∅)
      | _ => modify (add_log (log_load_error e)) ;;; ret (VDict ∅)
      end)
  else ret (VDict ∅).

(** [MessageServer.__init__]: the store is what the file gives. *)
Definition __init__ (r : read_outcome) : M unit :=
  v <- _load_all_messages r ;;
  modify (set_messages v).

(** [with open(self.message_file, "w") as f: json.dump(self.messages, f, indent=4)] *)
Definition write_json (w : write_outcome) : M unit :=
  fun s =>
    match w with
    | WriteOk => (Ok tt, set_message_file (Some (json_dump (messages s))) s)
    | OpenFails e => (Raise e, s)
    | DumpFails e partial => (Raise e, set_message_file (Some partial) s)
    end.

(** The record built for a message: [name], [message], the time of the
    call, and the number of messages the room already holds. *)
Definition message_data (name msg : value) (now : string) (n : nat) : value :=
  VDict (<["name" := name]> (<["message" := msg]>
        (<["timestamp" := VStr now]> (<["id" := VInt (Z.of_nat n)]> ∅)))).

(** [now] is what [datetime.now().isoformat()] returns during the call. *)
Definition save_message (now : string) (w : write_outcome)
    (room : string) (message : value) : M bool :=
  try (
    store <- gets messages ;;
    present <- lift (py_contains store room) ;;
    when (negb present) (
      store' <- lift (py_setitem store room (VList [])) ;;
      modify (set_messages store')) ;;;
    name <- lift (py_getitem message "name") ;;
    msg <- lift (py_getitem message "message") ;;
    store <- gets messages ;;
    room_log <- lift (py_getitem store room) ;;
    n <- lift (py_len room_log) ;;
    room_log' <- lift (py_append room_log (message_data name msg now n)) ;;
    store' <- lift (py_setitem store room room_log') ;;
    modify (set_messages store') ;;;
    write_json w ;;;
    ret true)
  except_ (fun e =>
    modify (add_log (log_save_error e)) ;;; ret false).

(** [self.messages.get(room, [])] *)
Definition load_room_messages (room : string) : M value :=
  store <- gets messages ;;
  lift (py_get store room (VList [])).

End MessageServer.

Section SocketioServer.
Context {rt : PyRuntime}.

(** ** socketio_server.py

    A handler runs for one connection, [request.sid]; it is the first
    argument of the handlers below. *)

(** [emit(event, payload)]: to the connection the handler runs for. *)
Definition emit (self : sid) (ev : string) (p : value) : M unit :=
  modify (add_outbox (Delivery ev p {[self]})).

Definition members (room : string) (s : server) : gset sid :=
  default ∅ (rooms s !! room).

(** [send(payload, to=room)]: a [message] event to every connection in the
    room; [include_self] is left at its default, so the sender gets it too
    when it is in the room. *)
Definition send (p : value) (room : string) : M unit :=
  to <- gets (members room) ;;
  modify (add_outbox (Delivery "message" p to)).

(** [join_room(room)] *)
Definition join_room (self : sid) (room : string) : M unit :=
  modify (fun s => set_rooms (<[room := {[self]} ∪ members room s]> (rooms s)) s).

(** The payload of an [error] event. *)
Definition error_payload (msg : string) : value :=
  VDict (<["message" := VStr msg]> ∅).

(** A room handed on to [MessageServer], [join_room] and [send]. *)
Definition room_name (v : value) : M string :=
  match v with
  | VStr r => ret r
  | _ => lift Stuck
  end.

Definition handle_message (self : sid) (now : string) (w : write_outcome)
    (data : value) : M unit :=
  try (
    room <- lift (py_get data "room" VNone) ;;
    if negb (truthy room) then
      modify (add_log log_no_room) ;;;
      emit self "error" (error_payload "Room not specified")
    else
      name <- lift (py_get data "name" VNone) ;;
      msg <- lift (py_get data "message" VNone) ;;
      if negb (truthy name) || negb (truthy msg) then
        modify (add_log log_invalid_format) ;;;
        emit self "error" (error_payload "Invalid message format")
      else
        modify (add_log (log_message_received room data)) ;;;
        r <- room_name room ;;
        saved <- save_message now w r data ;;
        if saved then send data r
        else emit self "error" (error_payload "Failed to save message"))
  except_ (fun e =>
    modify (add_log (log_message_error e)) ;;;
    emit self "error" (error_payload "Internal server error")).

(** The notice broadcast when [name] joins. *)
Definition join_message (name : value) (now : string) : value :=
  VDict (<["name" := VStr "System"]>
        (<["message" := VStr (py_str name +:+ " joined the room")]>
        (<["timestamp" := VStr now]> ∅))).

Definition handle_join (self : sid) (now : string) (data : value) : M unit :=
  try (
    room <- lift (py_get data "room" VNone) ;;
    name <- lift (py_get data "name" VNone) ;;
    if negb (truthy room) || negb (truthy name) then
      emit self "error" (error_payload "Room and name are required")
    else
      r <- room_name room ;;
      join_room self r ;;;
      previous_messages <- load_room_messages r ;;
      when (truthy previous_messages)
        (emit self "chat_history" previous_messages) ;;;
      send (join_message name now) r ;;;
      modify (add_log (log_joined name room)))
  except_ (fun e =>
    modify (add_log (log_join_error e)) ;;;
    emit self "error" (error_payload "Failed to join room")).

End SocketioServer.

Section Runs.
Context {rt : PyRuntime}.

(** ** Runs of the program *)

(** The process before [MessageServer()] has run, over a given file. *)
Definition blank (file : option text) : server := Server VNone file [] ∅ [].

(** [message_server = MessageServer()] *)
Definition boot (file : option text) (r : read_outcome) : server :=
  (__init__ r (blank file)).2.

(** One call of [save_message], with what the clock and the disk do during it. *)
Record call : Type := Call {
  c_now : string;
  c_write : write_outcome;
  c_room : string;
  c_message : value;
}.

Definition do_call (c : call) : M bool :=
  save_message (c_now c) (c_write c) (c_room c) (c_message c).

(** Calls made one after the other; the results and the final state. *)
Fixpoint run_saves (calls : list call) (s : server) : list (outcome bool) * server :=
  match calls with
  | [] => ([], s)
  | c :: calls' =>
      let (o, s1) := do_call c s in
      let (os, s2) := run_saves calls' s1 in
      (o :: os, s2)
  end.

(** The log a store holds for a room: none is an empty log. *)
Definition log_of (d : gmap string value) (room : string) : option (list value) :=
  match d !! room with
  | None => Some []
  | Some (VList l) => Some l
  | Some _ => None
  end.

Definition msg_id (m : value) : option value :=
  match m with VDict d => d !! "id" | _ => None end.

Definition field (m : value) (k : string) : value :=
  match m with VDict d => default VNone (d !! k) | _ => VNone end.

(** The ids [0, 1, ...] of a log of length [n]. *)
Definition ids_upto (n : nat) : list (option value) :=
  (fun i => Some (VInt (Z.of_nat i))) <$> seq 0 n.

(** Every room's log is a list whose messages are numbered by position. *)
Definition numbered (s : server) : Prop :=
  exists d, messages s = VDict d /\
    forall r v, d !! r = Some v ->
      exists ms, v = VList ms /\ msg_id <$> ms = ids_upto (length ms).

(** The calls made to one room. *)
Definition to_room (r : string) (calls : list call) : list call :=
  filter (fun c => c_room c = r) calls.

(** The records stored for calls, numbered from [n]. *)
Fixpoint stored (n : nat) (calls : list call) : list value :=
  match calls with
  | [] => []
  | c :: calls' =>
      message_data (field (c_message c) "name") (field (c_message c) "message")
        (c_now c) n :: stored (S n) calls'
  end.

(** Whether the message of a call has the keys [name] and [message]: on a
    store of lists these are the calls that get as far as the append. *)
Definition has_fields (c : call) : bool :=
  match py_getitem (c_message c) "name", py_getitem (c_message c) "message" with
  | Ok _, Ok _ => true
  | _, _ => false
  end.

Definition write_ok (w : write_outcome) : bool :=
  match w with WriteOk => true | _ => false end.

(** The calls to one room that get as far as the append. *)
Definition appended (r : string) (calls : list call) : list call :=
  filter (fun c => c_room c = r /\ has_fields c = true) calls.

(** What the file holds, read as JSON. *)
Definition persisted (s : server) : option value :=
  match message_file s with
  | Some t => json_load t
  | None => None
  end.

(** The store is what a restart would load from the file. *)
Definition in_sync (s : server) : Prop :=
  messages (boot (message_file s) ReadOk) = messages s.

End Runs.

Section Leave.
Context {rt : PyRuntime}.

(** ** socketio_server.py: leaving a room *)

(** [leave_room(room)]: the connection goes out of the room, and a room left
    without members is dropped.  For a connection that is not in the room
    nothing changes. *)
Definition leave_room (self : sid) (room : string) : M unit :=
  modify (fun s =>
    let rest := members room s ∖ {[self]} in
    set_rooms (if decide (rest = ∅) then delete room (rooms s)
               else <[room := rest]> (rooms s)) s).

(** The notice broadcast when [name] leaves. *)
Definition leave_message (name : value) (now : string) : value :=
  VDict (<["name" := VStr "System"]>
        (<["message" := VStr (py_str name +:+ " left the room")]>
        (<["timestamp" := VStr now]> ∅))).

(** What [handle_leave] asks the logger to record. *)
Inductive leave_record : Type :=
  | log_left (name room : value)
  | log_leave_error (e : exn).

(** The result is the record handed to the logger, if any: the handler
    itself returns nothing. *)
Definition handle_leave (self : sid) (now : string) (data : value)
    : M (option leave_record) :=
  try (
    room <- lift (py_get data "room" VNone) ;;
    name <- lift (py_get data "name" VNone) ;;
    if negb (truthy room) || negb (truthy name) then
      emit self "error" (error_payload "Room and name are required") ;;;
      ret None
    else
      r <- room_name room ;;
      leave_room self r ;;;
      send (leave_message name now) r ;;;
      ret (Some (log_left name room)))
  except_ (fun e =>
    emit self "error" (error_payload "Failed to leave room") ;;;
    ret (Some (log_leave_error e))).

(** The room of an event is a string, or a value the handlers refuse as
    missing. *)
Definition room_is_str (data : value) : Prop :=
  (exists r, field data "room" = VStr r) \/ truthy (field data "room") = false.

End Leave.

(** ** socketio_client.py: connecting *)

Module Client.

(** What [connect_to_server] does, in order. *)
Inductive action : Type :=
  | info_connecting       (* logger.info("Connecting to server ...") *)
  | connect               (* self.sio.connect(self.server_url) *)
  | error_retrying        (* logger.error("... Retrying...") *)
  | sleep                 (* time.sleep(1) *)
  | error_max_retries.    (* logger.error("... Max retries exceeded.") *)

#[global] Instance action_eq_dec : EqDecision action.
Proof. solve_decision. Defined.

Definition max_retries : nat := 3.

(** The loop of [connect_to_server], entered with [self.connected] false.
    [connects i] tells whether the call of [sio.connect] made after [i]
    failures succeeds; [left] is [max_retries - retry_count]. *)
Fixpoint connect_loop (connects : nat -> bool) (retry_count left : nat)
    : bool * list action :=
  match left with
  | 0 => (false, [])
  | S left' =>
      if connects retry_count then (true, [info_connecting; connect])
      else
        match left' with
        | 0 => (false, [info_connecting; connect; error_max_retries])
        | S _ =>
            let (r, rest) := connect_loop connects (S retry_count) left' in
            (r, [info_connecting; connect; error_retrying; sleep] ++ rest)
        end
  end.

(** [connected] is [self.connected] at the call; a failed attempt leaves it
    as it is. *)
Definition connect_to_server (connected : bool) (connects : nat -> bool)
    : bool * list action :=
  if connected then (false, []) else connect_loop connects 0 max_retries.

(** How often an action occurs. *)
Definition count (a : action) (l : list action) : nat :=
  length (filter (fun x => x = a) l).

End Client.

Section MessageServerFacts.
Context {rt : PyRuntime}.

Ltac run :=
  unfold boot, do_call, __init__, save_message, load_room_messages, _load_all_messages, read_json,
    write_json, try_except, bind, gets, lift, raise, when, modify, ret in *;
  simpl in *.

Lemma py_getitem_not_stuck (v : value) (k : string) : py_getitem v k <> Stuck.
Proof. destruct v; simpl; try discriminate. destruct (d !! k); discriminate. Qed.

Lemma save_message_appends (now : string) (w : write_outcome) (room : string)
    (message : value) (s : server) (d : gmap string value) (l : list value) (name msg : value) :
  messages s = VDict d ->
  log_of d room = Some l ->
  py_getitem message "name" = Ok name ->
  py_getitem message "message" = Ok msg ->
  save_message now w room message s =
    let d' := <[room := VList (l ++ [message_data name msg now (length l)])]> d in
    match w with
    | WriteOk =>
        (Ok true, set_message_file (Some (json_dump (VDict d'))) (set_messages (VDict d') s))
    | OpenFails e =>
        (Ok false, add_log (log_save_error e) (set_messages (VDict d') s))
    | DumpFails e partial =>
        (Ok false, add_log (log_save_error e)
                     (set_message_file (Some partial) (set_messages (VDict d') s)))
    end.
Proof.
  intros Hd Hl Hn Hm. unfold log_of in Hl. run. rewrite Hd. simpl.
  destruct (d !! room) as [v|] eqn:Hr; simpl.
  - destruct v; try discriminate. injection Hl as ->.
    rewrite Hn, Hm, Hd. simpl. rewrite Hr. simpl. destruct w; reflexivity.
  - injection Hl as <-.
    rewrite Hn, Hm. simpl. rewrite lookup_insert_eq. simpl. rewrite insert_insert_eq.
    destruct w; reflexivity.
Qed.

(** Otherwise the call returns [False]: the store gains at most an empty log
    for the room, and nothing is written. *)
Lemma save_message_cases (now : string) (w : write_outcome) (room : string)
    (message : value) (s : server) :
  (exists d l name msg,
      messages s = VDict d /\ log_of d room = Some l /\
      py_getitem message "name" = Ok name /\ py_getitem message "message" = Ok msg) \/
  (exists s',
      save_message now w room message s = (Ok false, s') /\
      message_file s' = message_file s /\ rooms s' = rooms s /\ outbox s' = outbox s /\
      (messages s' = messages s \/
       exists d, messages s = VDict d /\ d !! room = None /\
                 messages s' = VDict (<[room := VList []]> d))).
Proof.
  destruct (messages s) as [| | | | |l0|d] eqn:Hd.
  7: {
    destruct (log_of d room) as [l|] eqn:Hl.
    - destruct (py_getitem message "name") as [name|e|] eqn:Hn;
        [destruct (py_getitem message "message") as [msg|e|] eqn:Hm|..];
        [left; eauto 10|..];
        try (exfalso; by eapply py_getitem_not_stuck);
        right; unfold log_of in Hl; run; rewrite Hd; simpl;
        destruct (d !! room) as [v|] eqn:Hr; simpl; rewrite ?Hn, ?Hm; simpl;
        (eexists; split; [reflexivity|]); simpl; rewrite ?Hd; eauto 10.
    - right. unfold log_of in Hl. run. rewrite Hd. simpl.
      destruct (d !! room) as [v|] eqn:Hr; [|discriminate]. simpl.
      destruct (py_getitem message "name") as [name|e|] eqn:Hn; simpl;
        [destruct (py_getitem message "message") as [msg|e|] eqn:Hm; simpl|..];
        try (exfalso; by eapply py_getitem_not_stuck);
        rewrite ?Hd; simpl; rewrite ?Hr; simpl.
      all: destruct v; try discriminate; simpl.
      all: (eexists; split; [reflexivity|]); simpl; rewrite ?Hd; eauto 10.
      all: fail.
  }
  all: right; run; rewrite Hd; simpl.
  all: try ((eexists; split; [reflexivity|]); simpl; rewrite ?Hd; by eauto 10).
  all: match goal with |- context [negb ?b] => destruct b end; simpl.
  all: try ((eexists; split; [reflexivity|]); simpl; rewrite ?Hd; by eauto 10).
  all: destruct (py_getitem message "name") as [name|e|] eqn:Hn; simpl;
        [destruct (py_getitem message "message") as [msg|e|] eqn:Hm; simpl|..];
        try (exfalso; by eapply py_getitem_not_stuck);
        rewrite ?Hd; simpl.
  all: (eexists; split; [reflexivity|]); simpl; rewrite ?Hd; by eauto 10.
Qed.



Lemma save_message_true_inv (now : string) (w : write_outcome) (room : string)
    (message : value) (s s' : server) :
  save_message now w room message s = (Ok true, s') ->
  exists d l name msg,
    messages s = VDict d /\ log_of d room = Some l /\
    py_getitem message "name" = Ok name /\ py_getitem message "message" = Ok msg /\
    w = WriteOk /\
    s' = let d' := <[room := VList (l ++ [message_data name msg now (length l)])]> d in
         set_message_file (Some (json_dump (VDict d'))) (set_messages (VDict d') s).
Proof.
  intros Hrun.
  destruct (save_message_cases now w room message s)
    as [(d & l & name & msg & Hd & Hl & Hn & Hm)|(s1 & Hs1 & _)]; [|congruence].
  exists d, l, name, msg. rewrite (save_message_appends _ _ _ _ _ _ _ _ _ Hd Hl Hn Hm) in Hrun.
  destruct w; simplify_eq/=; auto 10.
Qed.

(** [save_message] returns [True] or [False]; no exception leaves it. *)
Lemma save_message_returns (now : string) (w : write_outcome) (room : string)
    (message : value) (s : server) :
  exists b s', save_message now w room message s = (Ok b, s').
Proof.
  destruct (save_message_cases now w room message s)
    as [(d & l & name & msg & Hd & Hl & Hn & Hm)|(s1 & Hs1 & _)]; [|eauto].
  rewrite (save_message_appends _ _ _ _ _ _ _ _ _ Hd Hl Hn Hm). destruct w; simpl; eauto.
Qed.

Lemma log_of_insert_ne (d : gmap string value) (room r : string) (v : value) :
  r <> room -> log_of (<[room := v]> d) r = log_of d r.
Proof. intros Hne. unfold log_of. by rewrite lookup_insert_ne. Qed.

(** A call leaves the logs of the other rooms as they are. *)
Lemma save_message_other_rooms (now : string) (w : write_outcome) (room : string)
    (message : value) (s : server) (d : gmap string value) :
  messages s = VDict d ->
  exists d', messages (save_message now w room message s).2 = VDict d' /\
    forall r, r <> room -> log_of d' r = log_of d r.
Proof.
  intros Hd.
  destruct (save_message_cases now w room message s)
    as [(d0 & l & name & msg & Hd0 & Hl & Hn & Hm)|(s1 & Hs1 & _ & _ & _ & Hmsg)].
  - rewrite (save_message_appends _ _ _ _ _ _ _ _ _ Hd0 Hl Hn Hm).
    assert (d0 = d) as -> by congruence.
    eexists. split; [destruct w; reflexivity|].
    intros r Hr. by apply log_of_insert_ne.
  - rewrite Hs1. simpl. destruct Hmsg as [Hmsg|(d0 & Hd0 & Hnone & Hmsg)].
    + exists d. split; [congruence|done].
    + assert (d0 = d) as -> by congruence.
      eexists. split; [done|]. intros r Hr. by apply log_of_insert_ne.
Qed.

Lemma ids_upto_snoc (n : nat) :
  ids_upto (S n) = ids_upto n ++ [Some (VInt (Z.of_nat n))].
Proof. unfold ids_upto. by rewrite seq_S, fmap_app. Qed.

Lemma msg_id_message_data (name msg : value) (now : string) (n : nat) :
  msg_id (message_data name msg now n) = Some (VInt (Z.of_nat n)).
Proof. reflexivity. Qed.

Lemma save_message_numbered (now : string) (w : write_outcome) (room : string)
    (message : value) (s : server) :
  numbered s -> numbered (save_message now w room message s).2.
Proof.
  intros (d & Hd & Hnum).
  assert (forall l, log_of d room = Some l -> msg_id <$> l = ids_upto (length l)) as Hlog.
  { intros l. unfold log_of. destruct (d !! room) as [v|] eqn:Hr.
    - destruct (Hnum _ _ Hr) as (ms & -> & Hms). by intros [= <-].
    - by intros [= <-]. }
  destruct (save_message_cases now w room message s)
    as [(d0 & l & name & msg & Hd0 & Hl & Hn & Hm)|(s1 & Hs1 & _ & _ & _ & Hmsg)].
  - rewrite (save_message_appends _ _ _ _ _ _ _ _ _ Hd0 Hl Hn Hm).
    assert (d0 = d) as -> by congruence.
    eexists. split; [destruct w; reflexivity|].
    intros r v. destruct (decide (r = room)) as [->|Hne].
    + rewrite lookup_insert_eq. intros [= <-]. eexists. split; [done|].
      rewrite fmap_app, length_app, Nat.add_1_r, ids_upto_snoc, (Hlog _ Hl). done.
    + rewrite lookup_insert_ne by done. apply Hnum.
  - rewrite Hs1. simpl. destruct Hmsg as [Hmsg|(d0 & Hd0 & Hnone & Hmsg)].
    + exists d. split; [congruence|done].
    + assert (d0 = d) as -> by congruence.
      eexists. split; [done|]. intros r v. destruct (decide (r = room)) as [->|Hne].
      * rewrite lookup_insert_eq. intros [= <-]. by exists [].
      * rewrite lookup_insert_ne by done. apply Hnum.
Qed.

Lemma run_saves_numbered (calls : list call) (s : server) :
  numbered s -> numbered (run_saves calls s).2.
Proof.
  revert s. induction calls as [|c calls IH]; intros s Hs; [done|].
  simpl. pose proof (save_message_numbered (c_now c) (c_write c) (c_room c) (c_message c) s Hs) as H1.
  unfold do_call. destruct (save_message _ _ _ _ s) as [o s1]. simpl in H1.
  specialize (IH s1 H1). destruct (run_saves calls s1) as [os s2]. done.
Qed.

Lemma boot_absent (r : read_outcome) : boot None r = Server (VDict ∅) None [] ∅ [].
Proof. by destruct r. Qed.

Lemma numbered_boot_absent (r : read_outcome) : numbered (boot None r).
Proof. rewrite boot_absent. exists ∅. split; [done|]. intros ? ?. by rewrite lookup_empty. Qed.

Lemma numbered_replay (s : server) (r : string) :
  numbered s ->
  exists ms, load_room_messages r s = (Ok (VList ms), s) /\
             msg_id <$> ms = ids_upto (length ms).
Proof.
  intros (d & Hd & Hnum). run. rewrite Hd. simpl.
  destruct (d !! r) as [v|] eqn:Hr; simpl.
  - destruct (Hnum _ _ Hr) as (ms & -> & Hms). eauto.
  - by exists [].
Qed.

Lemma py_getitem_field (m : value) (k : string) (v : value) :
  py_getitem m k = Ok v -> field m k = v.
Proof.
  destruct m; simpl; try discriminate.
  destruct (d !! k); simpl; congruence.
Qed.

Lemma load_room_messages_log_of (s : server) (d : gmap string value) (r : string)
    (l : list value) :
  messages s = VDict d -> log_of d r = Some l ->
  load_room_messages r s = (Ok (VList l), s).
Proof.
  intros Hd Hl. unfold log_of in Hl. run. rewrite Hd. simpl.
  destruct (d !! r) as [[]|]; simplify_eq/=; done.
Qed.

Lemma length_stored (n : nat) (calls : list call) :
  length (stored n calls) = length calls.
Proof. revert n. induction calls as [|c calls IH]; intros n; simpl; [done|]. by rewrite IH. Qed.

Lemma numbered_log_of (s : server) (room : string) :
  numbered s ->
  exists d l, messages s = VDict d /\ log_of d room = Some l.
Proof.
  intros (d & Hd & Hnum). exists d. unfold log_of.
  destruct (d !! room) as [v|] eqn:Hr; [|by eauto].
  destruct (Hnum _ _ Hr) as (ms & -> & _). eauto.
Qed.

(** One call on a store of lists: what it returns, and what the log of a
    room is afterwards. *)
Lemma do_call_numbered (c : call) (r : string) (s : server)
    (d : gmap string value) (l : list value) :
  numbered s -> messages s = VDict d -> log_of d r = Some l ->
  (do_call c s).1 = Ok (has_fields c && write_ok (c_write c)) /\
  exists d', messages (do_call c s).2 = VDict d' /\
    log_of d' r = Some (l ++ stored (length l) (appended r [c])).
Proof.
  intros Hnum Hd Hl. unfold appended.
  destruct (numbered_log_of s (c_room c) Hnum) as (d0 & l0 & Hd0 & Hl0).
  assert (d0 = d) as -> by congruence.
  destruct (py_getitem (c_message c) "name") as [name|e|] eqn:Hn;
    [destruct (py_getitem (c_message c) "message") as [msg|e|] eqn:Hm|..];
    try (exfalso; by eapply py_getitem_not_stuck).
  - unfold do_call. rewrite (save_message_appends _ _ _ _ _ _ _ _ _ Hd Hl0 Hn Hm).
    assert (has_fields c = true) as Hf by (unfold has_fields; by rewrite Hn, Hm).
    rewrite Hf. split; [by destruct (c_write c)|].
    eexists. split; [by destruct (c_write c)|].
    destruct (decide (c_room c = r)) as [Heq|Hne].
    + rewrite filter_cons_True by done. simpl.
      rewrite (py_getitem_field _ _ _ Hn), (py_getitem_field _ _ _ Hm).
      unfold log_of. rewrite Heq, lookup_insert_eq.
      rewrite Heq in Hl0. assert (l0 = l) as -> by congruence. done.
    + rewrite filter_cons_False by (intros [? _]; done). simpl.
      rewrite log_of_insert_ne, app_nil_r by done. done.
  - assert (has_fields c = false) as Hf by (unfold has_fields; by rewrite Hn, Hm).
    rewrite Hf, filter_cons_False by (intros [_ ?]; congruence). simpl.
    rewrite app_nil_r. clear Hf Hnum.
    unfold log_of in Hl0. run. rewrite Hd. simpl.
    destruct (d !! c_room c) as [v|] eqn:Hr; simpl; rewrite Hn, Hm; simpl;
      (split; [done|]); rewrite ?Hd; eexists; (split; [done|]); [done|].
    destruct (decide (r = c_room c)) as [->|Hne]; [|by rewrite log_of_insert_ne].
    unfold log_of in *. by rewrite lookup_insert_eq, <- Hl, Hr.
  - assert (has_fields c = false) as Hf by (unfold has_fields; by rewrite Hn).
    rewrite Hf, filter_cons_False by (intros [_ ?]; congruence). simpl.
    rewrite app_nil_r. clear Hf Hnum.
    unfold log_of in Hl0. run. rewrite Hd. simpl.
    destruct (d !! c_room c) as [v|] eqn:Hr; simpl; rewrite Hn; simpl;
      (split; [done|]); rewrite ?Hd; eexists; (split; [done|]); [done|].
    destruct (decide (r = c_room c)) as [->|Hne]; [|by rewrite log_of_insert_ne].
    unfold log_of in *. by rewrite lookup_insert_eq, <- Hl, Hr.
Qed.

(** A run on a store of lists: the results of the calls, and the log of a
    room afterwards: the log it had, then one record for each call to the
    room that got as far as the append, numbered on from the length of the
    log. *)
Lemma run_saves_numbered_log (calls : list call) (r : string) (s : server)
    (d : gmap string value) (l : list value) :
  numbered s -> messages s = VDict d -> log_of d r = Some l ->
  (run_saves calls s).1 = (fun c => Ok (has_fields c && write_ok (c_write c))) <$> calls /\
  exists d', messages (run_saves calls s).2 = VDict d' /\
    log_of d' r = Some (l ++ stored (length l) (appended r calls)).
Proof.
  revert s d l. induction calls as [|c calls IH]; intros s d l Hnum Hd Hl.
  { simpl. split; [done|]. exists d. by rewrite app_nil_r. }
  destruct (do_call_numbered c r s d l Hnum Hd Hl) as (Ho & d1 & Hd1 & Hl1).
  assert (numbered (do_call c s).2) as Hnum1 by apply (save_message_numbered _ _ _ _ _ Hnum).
  simpl. destruct (do_call c s) as [o s1]. simpl in *.
  destruct (IH s1 d1 _ Hnum1 Hd1 Hl1) as (Hos & d2 & Hd2 & Hl2).
  destruct (run_saves calls s1) as [os s2]. simpl in *.
  split; [by rewrite Ho, Hos|].
  exists d2. split; [done|]. rewrite Hl2. f_equal.
  unfold appended in *. rewrite <- app_assoc. f_equal.
  destruct (decide (c_room c = r /\ has_fields c = true)) as [Hin|Hout].
  - rewrite !filter_cons_True by done. simpl.
    rewrite length_app. simpl. by rewrite Nat.add_1_r.
  - rewrite !filter_cons_False by done. simpl. by rewrite app_nil_r.
Qed.

(** C2. Calls of [save_message] made one after the other on a store whose
    logs are numbered by position (the store of a server started without a
    file is one).  The log of a room is then the log it had, followed by
    one record for each call to that room whose message has a name and a
    text, in the order of the calls; the record of a call carries the
    caller's name and text, the time of the call, and as id the number of
    messages the room held when the call came: ids are counted per room.  So
    the ids of the log, as [load_room_messages] returns it, are exactly
    0, 1, 2, ...  A call returns [True] when its record was appended and the
    file written, and [False] otherwise; the store stays numbered. *)
Theorem C2_sequence_ids (s0 : server) (calls : list call) (r : string) :
  numbered s0 ->
  let run := run_saves calls s0 in
  exists before,
    load_room_messages r s0 = (Ok (VList before), s0) /\
    load_room_messages r run.2 =
      (Ok (VList (before ++ stored (length before) (appended r calls))), run.2) /\
    msg_id <$> (before ++ stored (length before) (appended r calls)) =
      ids_upto (length before + length (appended r calls)) /\
    run.1 = (fun c => Ok (has_fields c && write_ok (c_write c))) <$> calls /\
    numbered run.2.
Proof.
  intros Hnum run.
  destruct (numbered_log_of s0 r Hnum) as (d & before & Hd & Hl).
  destruct (run_saves_numbered_log calls r s0 d before Hnum Hd Hl)
    as (Hos & d' & Hd' & Hl').
  assert (numbered run.2) as Hnum' by by apply run_saves_numbered.
  exists before. split; [by apply (load_room_messages_log_of _ d)|].
  assert (load_room_messages r run.2
          = (Ok (VList (before ++ stored (length before) (appended r calls))), run.2))
    as Hreplay by by apply (load_room_messages_log_of _ d').
  split; [done|]. split; [|done].
  destruct (numbered_replay run.2 r Hnum') as (ms & Hms & Hids).
  rewrite Hreplay in Hms. injection Hms as <-.
  by rewrite Hids, length_app, length_stored.
Qed.

(** The log of a room after a run in which every call to the room returned
    [True]: the log it had, then one record per call to the room. *)
Lemma run_saves_log (calls : list call) (r : string) (s : server)
    (d : gmap string value) (l : list value) :
  messages s = VDict d -> log_of d r = Some l ->
  Forall2 (fun c o => c_room c = r -> o = Ok true) calls (run_saves calls s).1 ->
  exists d', messages (run_saves calls s).2 = VDict d' /\
    log_of d' r = Some (l ++ stored (length l) (to_room r calls)).
Proof.
  revert s d l. induction calls as [|c calls IH]; intros s d l Hd Hl Hall.
  { simpl. exists d. by rewrite app_nil_r. }
  simpl in *. unfold do_call in *.
  destruct (save_message (c_now c) (c_write c) (c_room c) (c_message c) s)
    as [o s1] eqn:Hrun.
  specialize (IH s1). destruct (run_saves calls s1) as [os s2]. simpl in *.
  apply Forall2_cons in Hall as [Ho Hall].
  unfold to_room. destruct (decide (c_room c = r)) as [Heq|Hne].
  - rewrite filter_cons_True by done. simpl.
    rewrite (Ho Heq) in Hrun.
    apply save_message_true_inv in Hrun
      as (d0 & l0 & name & msg & Hd0 & Hl0 & Hn & Hm & _ & ->).
    assert (d0 = d) as -> by congruence. rewrite Heq in Hl0.
    assert (l0 = l) as -> by congruence.
    rewrite (py_getitem_field _ _ _ Hn), (py_getitem_field _ _ _ Hm).
    edestruct IH as (d' & Hd' & Hl'); [reflexivity| |exact Hall|].
    { unfold log_of. rewrite Heq, lookup_insert_eq. reflexivity. }
    exists d'. split; [done|]. rewrite Hl', length_app, Nat.add_1_r, <- app_assoc. done.
  - rewrite filter_cons_False by done.
    destruct (save_message_other_rooms (c_now c) (c_write c) (c_room c) (c_message c) s d Hd)
      as (d1 & Hd1 & Hother).
    rewrite Hrun in Hd1. simpl in Hd1.
    apply (IH d1 l Hd1); [|done]. rewrite Hother by done. done.
Qed.

(** After calls made from a server started without a file, if every call to
    room [r] returned [True], [load_room_messages r] returns exactly one
    record per call to [r], in the order of the calls: the caller's name and
    message, the time of the call, and its position as id.  For a room no
    call was made to, this is the empty list. *)
Lemma replay_when_all_saved (rd : read_outcome) (calls : list call) (r : string) :
  let run := run_saves calls (boot None rd) in
  Forall2 (fun c o => c_room c = r -> o = Ok true) calls run.1 ->
  load_room_messages r run.2 = (Ok (VList (stored 0 (to_room r calls))), run.2) /\
  length (stored 0 (to_room r calls)) = length (to_room r calls).
Proof.
  intros run Hall. split; [|apply length_stored].
  destruct (run_saves_log calls r (boot None rd) ∅ []) as (d' & Hd' & Hl'); [|done|done|].
  { by rewrite boot_absent. }
  by apply (load_room_messages_log_of _ d').
Qed.

Lemma message_file_boot (file : option text) (rd : read_outcome) :
  message_file (boot file rd) = file.
Proof.
  unfold boot. run. destruct file as [t|]; simpl; [|done].
  destruct rd as [|e]; simpl; [destruct (json_load t); done|destruct e; done].
Qed.

Lemma messages_boot (file : option text) :
  messages (boot file ReadOk) = default (VDict ∅) (file ≫= json_load).
Proof.
  unfold boot. run. destruct file as [t|]; simpl; [|done].
  destruct (json_load t); done.
Qed.

Lemma in_sync_boot (file : option text) : in_sync (boot file ReadOk).
Proof. unfold in_sync. by rewrite message_file_boot. Qed.

Lemma save_message_in_sync (now : string) (w : write_outcome) (room : string)
    (message : value) (s s' : server) :
  save_message now w room message s = (Ok true, s') -> in_sync s'.
Proof.
  intros (d & l & name & msg & _ & _ & _ & _ & _ & ->)%save_message_true_inv.
  unfold in_sync. rewrite messages_boot. simpl. by rewrite json_load_dump.
Qed.

Lemma run_saves_in_sync (calls : list call) (s : server) :
  in_sync s ->
  Forall (fun o => o = Ok true) (run_saves calls s).1 ->
  in_sync (run_saves calls s).2.
Proof.
  revert s. induction calls as [|c calls IH]; intros s Hs Hall; [done|].
  simpl in *. unfold do_call in *.
  destruct (save_message (c_now c) (c_write c) (c_room c) (c_message c) s)
    as [o s1] eqn:Hrun.
  specialize (IH s1). destruct (run_saves calls s1) as [os s2]. simpl in *.
  apply Forall_cons in Hall as [-> Hall].
  apply IH; [|done]. by eapply save_message_in_sync.
Qed.

(** After a first call that returned [True] the store and the file agree,
    whatever the state before. *)
Lemma run_saves_in_sync_nonempty (calls : list call) (s : server) :
  calls <> [] ->
  Forall (fun o => o = Ok true) (run_saves calls s).1 ->
  in_sync (run_saves calls s).2.
Proof.
  destruct calls as [|c calls]; [done|]. intros _ Hall.
  pose proof (run_saves_in_sync calls) as Hrest.
  simpl in *. unfold do_call in *.
  destruct (save_message (c_now c) (c_write c) (c_room c) (c_message c) s)
    as [o s1] eqn:Hrun.
  specialize (Hrest s1). destruct (run_saves calls s1) as [os s2]. simpl in *.
  apply Forall_cons in Hall as [-> Hall].
  apply Hrest; [|done]. by eapply save_message_in_sync.
Qed.

(** C4. Round trip.  In a server started from any file, after calls of
    [save_message] that all returned [True], a server started anew from the
    file as the last call wrote it holds the very store the running server
    holds in memory: same rooms, same messages in the same order, same ids.
    With no call at all this needs the first start to have read its file. *)
Theorem C4_persist_reload_roundtrip (file : option text) (rd : read_outcome)
    (calls : list call) :
  let run := run_saves calls (boot file rd) in
  rd = ReadOk \/ calls <> [] ->
  Forall (fun o => o = Ok true) run.1 ->
  messages (boot (message_file run.2) ReadOk) = messages run.2.
Proof.
  intros run [-> | Hne] Hall.
  - apply run_saves_in_sync; [apply in_sync_boot|done].
  - by apply run_saves_in_sync_nonempty.
Qed.


Lemma load_all_absent (rd : read_outcome) (s : server) :
  message_file s = None -> _load_all_messages rd s = (Ok (VDict ∅), s).
Proof. intros Hfile. run. by rewrite Hfile. Qed.

Lemma load_all_parsed (s : server) (t : text) (v : value) :
  message_file s = Some t -> json_load t = Some v ->
  _load_all_messages ReadOk s = (Ok v, s).
Proof. intros Hfile Hload. run. rewrite Hfile. simpl. by rewrite Hfile, Hload. Qed.

Lemma load_all_unparseable (s : server) (t : text) :
  message_file s = Some t -> json_load t = None ->
  _load_all_messages ReadOk s = (Ok (VDict ∅), add_log log_invalid_json s).
Proof. intros Hfile Hload. run. rewrite Hfile. simpl. by rewrite Hfile, Hload. Qed.

Lemma load_all_read_fails (s : server) (t : text) (e : exn) :
  message_file s = Some t ->
  _load_all_messages (ReadFails e) s =
    (Ok (VDict ∅),
     add_log (match e with JSONDecodeError => log_invalid_json | _ => log_load_error e end) s).
Proof. intros Hfile. run. rewrite Hfile. simpl. by destruct e. Qed.

Lemma load_room_messages_empty (s : server) (room : string) :
  messages s = VDict ∅ -> load_room_messages room s = (Ok (VList []), s).
Proof. intros Hd. run. rewrite Hd. simpl. by rewrite lookup_empty. Qed.

(** C5. [_load_all_messages] returns a store whatever the file and the read
    do; no exception leaves it.  Without a file the store is empty and
    nothing is logged; with a file that cannot be read or parsed the store is
    empty and the error is logged.  In a server started so,
    [load_room_messages] returns the empty list for every room. *)
Theorem C5_load_never_raises (rd : read_outcome) (s : server) :
  exists v s', _load_all_messages rd s = (Ok v, s') /\
    (message_file s = None -> v = VDict ∅ /\ s' = s) /\
    (forall t, message_file s = Some t -> json_load t = None \/ rd <> ReadOk ->
       v = VDict ∅ /\ exists e, s' = add_log e s) /\
    (v = VDict ∅ -> forall room,
       load_room_messages room (__init__ rd s).2 = (Ok (VList []), (__init__ rd s).2)).
Proof.
  assert (forall v s', _load_all_messages rd s = (Ok v, s') ->
                       (__init__ rd s).2 = set_messages v s') as Hinit.
  { intros v s' Hload. unfold __init__, bind, modify. by rewrite Hload. }
  assert (forall s1 room, load_room_messages room (set_messages (VDict ∅) s1)
                          = (Ok (VList []), set_messages (VDict ∅) s1)) as Hempty.
  { intros s1 room. by apply load_room_messages_empty. }
  destruct (message_file s) as [t|] eqn:Hfile.
  - destruct rd as [|e].
    + destruct (json_load t) as [v|] eqn:Hload.
      * exists v, s. rewrite (Hinit _ _ (load_all_parsed _ _ _ Hfile Hload)),
          (load_all_parsed _ _ _ Hfile Hload).
        split; [done|]. split; [done|]. split.
        -- intros t' [= <-] [?|?]; congruence.
        -- intros ->. apply Hempty.
      * eexists _, _. rewrite (Hinit _ _ (load_all_unparseable _ _ Hfile Hload)),
          (load_all_unparseable _ _ Hfile Hload).
        split; [done|]. split; [done|]. split; [|intros _; apply Hempty].
        intros _ _ _. split; [done|]. by eexists.
    + eexists _, _. rewrite (Hinit _ _ (load_all_read_fails _ _ _ Hfile)),
        (load_all_read_fails _ _ _ Hfile).
      split; [done|]. split; [done|]. split; [|intros _; apply Hempty].
      intros _ _ _. split; [done|]. by eexists.
  - exists (VDict ∅), s. rewrite (Hinit _ _ (load_all_absent _ _ Hfile)),
      (load_all_absent _ _ Hfile).
    split; [done|]. split; [done|]. split; [done|].
    intros _. apply Hempty.
Qed.


End MessageServerFacts.

Section HandlerFacts.
Context {rt : PyRuntime}.

Ltac run_handler :=
  unfold handle_message, handle_join, room_name, send, emit, join_room,
    try_except, bind, gets, lift, raise, when, modify, ret in *;
  simpl in *.

(** A message event that passes the checks of the handler: the store is
    asked to save it, and the inbound [data] is what gets sent. *)
Lemma handle_message_valid (self : sid) (now : string) (w : write_outcome)
    (d : gmap string value) (r : string) (s : server) :
  d !! "room" = Some (VStr r) -> truthy (VStr r) = true ->
  truthy (default VNone (d !! "name")) = true ->
  truthy (default VNone (d !! "message")) = true ->
  handle_message self now w (VDict d) s =
    let s0 := add_log (log_message_received (VStr r) (VDict d)) s in
    match save_message now w r (VDict d) s0 with
    | (Ok true, s1) =>
        (Ok tt, add_outbox (Delivery "message" (VDict d) (members r s1)) s1)
    | (Ok false, s1) =>
        (Ok tt, add_outbox
                  (Delivery "error" (error_payload "Failed to save message") {[self]}) s1)
    | (Raise e, s1) =>
        (Ok tt, add_outbox
                  (Delivery "error" (error_payload "Internal server error") {[self]})
                  (add_log (log_message_error e) s1))
    | (Stuck, s1) => (Stuck, s1)
    end.
Proof.
  intros Hroom Hr Hname Hmsg. run_handler. rewrite Hroom. simpl.
  simpl in Hr. rewrite Hr, Hname, Hmsg. simpl.
  destruct (save_message now w r (VDict d) _) as [[[]| |] s1]; reflexivity.
Qed.


(** C6, as the code has it.  The check is made by [handle_message], before
    it calls [save_message]: for every message event whose name or text is
    missing or empty, the handler sends one [error] event to the sender only
    and changes neither the store, nor the file, nor the membership. *)
Theorem C6_handler_rejects_empty (self : sid) (now : string) (w : write_outcome)
    (data : value) (s : server) :
  truthy (field data "name") = false \/ truthy (field data "message") = false ->
  exists s' txt,
    handle_message self now w data s = (Ok tt, s') /\
    messages s' = messages s /\ message_file s' = message_file s /\
    rooms s' = rooms s /\
    outbox s' = outbox s ++ [Delivery "error" (error_payload txt) {[self]}].
Proof.
  intros Hempty.
  destruct data as [| | | | | |d];
    try (run_handler; eexists _, _; split; [reflexivity|]; done).
  simpl in Hempty. run_handler.
  destruct (truthy (default VNone (d !! "room"))); simpl;
    [|eexists _, _; split; [reflexivity|]; done].
  destruct Hempty as [-> | ->]; simpl; rewrite ?orb_true_r;
    eexists _, _; (split; [reflexivity|]); done.
Qed.

(** A join event that passes the checks of the handler, on a store that is a
    dictionary: the connection enters the room, gets the history when there
    is some, and the notice goes to the room it is now in. *)
Lemma handle_join_valid (self : sid) (now : string) (d : gmap string value)
    (r : string) (s : server) (store : gmap string value) :
  d !! "room" = Some (VStr r) -> truthy (VStr r) = true ->
  truthy (default VNone (d !! "name")) = true ->
  messages s = VDict store ->
  handle_join self now (VDict d) s =
    let name := default VNone (d !! "name") in
    let history := default (VList []) (store !! r) in
    let to := {[self]} ∪ members r s in
    (Ok tt,
     Server (messages s) (message_file s)
       (log s ++ [log_joined name (VStr r)])
       (<[r := to]> (rooms s))
       (outbox s
          ++ (if truthy history then [Delivery "chat_history" history {[self]}] else [])
          ++ [Delivery "message" (join_message name now) to])).
Proof.
  intros Hroom Hr Hname Hstore. run_handler. rewrite Hroom. simpl.
  simpl in Hr. rewrite Hr, Hname. simpl.
  unfold load_room_messages, bind, gets, lift. simpl. rewrite Hstore. simpl.
  destruct (truthy (default (VList []) (store !! r))); simpl;
    unfold members; simpl; rewrite lookup_insert_eq; simpl;
    unfold add_log, add_outbox, set_rooms; simpl; rewrite ?Hstore, <- ?app_assoc; reflexivity.
Qed.

(** C7, as the code has it.  On a successful join the connection is first
    put in the room, and the join notice then goes to every member of the
    room, the joining connection among them. *)
Theorem C7_join_notice_reaches_joiner (self : sid) (now : string)
    (d : gmap string value) (r : string) (s : server) (store : gmap string value) :
  d !! "room" = Some (VStr r) -> truthy (VStr r) = true ->
  truthy (default VNone (d !! "name")) = true ->
  messages s = VDict store ->
  exists s' earlier to,
    handle_join self now (VDict d) s = (Ok tt, s') /\
    outbox s' =
      earlier ++ [Delivery "message" (join_message (default VNone (d !! "name")) now) to] /\
    to = {[self]} ∪ members r s /\ members r s' = to /\ self ∈ to.
Proof.
  intros Hroom Hr Hname Hstore.
  rewrite (handle_join_valid _ _ _ _ _ _ Hroom Hr Hname Hstore). simpl.
  eexists _, _, _. split; [reflexivity|]. simpl. split.
  { rewrite app_assoc. reflexivity. }
  split; [reflexivity|]. split.
  - unfold members. simpl. by rewrite lookup_insert_eq.
  - set_solver.
Qed.

(** C9, as the code has it.  On a successful join, when the room has a
    history, one [chat_history] event carrying the whole log goes to the
    joining connection only; when the room has none, no [chat_history] event
    is sent at all. *)
Theorem C9_chat_history_only_when_nonempty (self : sid) (now : string)
    (d : gmap string value) (r : string) (s : server) (store : gmap string value) :
  d !! "room" = Some (VStr r) -> truthy (VStr r) = true ->
  truthy (default VNone (d !! "name")) = true ->
  messages s = VDict store ->
  exists s' new,
    handle_join self now (VDict d) s = (Ok tt, s') /\
    outbox s' = outbox s ++ new /\
    filter (fun x => event x = "chat_history") new =
      let history := default (VList []) (store !! r) in
      if truthy history then [Delivery "chat_history" history {[self]}] else [].
Proof.
  intros Hroom Hr Hname Hstore.
  rewrite (handle_join_valid _ _ _ _ _ _ Hroom Hr Hname Hstore). simpl.
  eexists _, _. split; [reflexivity|]. simpl. split; [reflexivity|].
  destruct (truthy (default (VList []) (store !! r))); reflexivity.
Qed.

(** C8, as the code has it.  For a valid message event whose save succeeds,
    the payload sent to the members of the room is the inbound [data] as it
    came, while the record appended to the log is the one [save_message]
    built, with the time of the call and the id. *)
Theorem C8_broadcast_is_inbound_data (self : sid) (now : string)
    (d : gmap string value) (r : string) (s : server)
    (store : gmap string value) (l : list value) :
  d !! "room" = Some (VStr r) -> truthy (VStr r) = true ->
  truthy (default VNone (d !! "name")) = true ->
  truthy (default VNone (d !! "message")) = true ->
  messages s = VDict store -> log_of store r = Some l ->
  exists s',
    handle_message self now WriteOk (VDict d) s = (Ok tt, s') /\
    outbox s' = outbox s ++ [Delivery "message" (VDict d) (members r s)] /\
    load_room_messages r s' =
      (Ok (VList (l ++ [message_data (default VNone (d !! "name"))
                          (default VNone (d !! "message")) now (length l)])), s').
Proof.
  intros Hroom Hr Hname Hmsg Hstore Hl.
  rewrite (handle_message_valid _ _ _ _ _ _ Hroom Hr Hname Hmsg). simpl.
  assert (forall k, truthy (default VNone (d !! k)) = true ->
                    py_getitem (VDict d) k = Ok (default VNone (d !! k))) as Hget.
  { intros k. simpl. destruct (d !! k); [done|discriminate]. }
  erewrite save_message_appends; [|exact Hstore|exact Hl|by apply Hget|by apply Hget].
  simpl. eexists. split; [reflexivity|]. split; [reflexivity|].
  eapply load_room_messages_log_of; [reflexivity|].
  unfold log_of. by rewrite lookup_insert_eq.
Qed.

End HandlerFacts.

(** ** The program on concrete inputs *)

Section Scenarios.
#[local] Existing Instance doc_runtime.

Definition event_data (room name msg : string) : value :=
  VDict (<["room" := VStr room]> (<["name" := VStr name]> (<["message" := VStr msg]> ∅))).

Definition alice_hello : value := event_data "r1" "alice" "hello".
Definition bob_hi : value := event_data "r1" "bob" "hi".
Definition carol_yo : value := event_data "r2" "carol" "yo".
Definition nameless : value := event_data "r1" "" "".

Definition three_calls : list call :=
  [Call "t0" WriteOk "r1" alice_hello;
   Call "t1" WriteOk "r2" carol_yo;
   Call "t2" WriteOk "r1" bob_hi].

(** C1, on the code.  The server starts without a file; [open] fails during a
    save to room r1.  The call returns [False] and raises nothing, but the
    log of r1, empty before, holds the message afterwards: the append is not
    undone. *)
Example C1_failed_write_keeps_message :
  let s := boot None ReadOk in
  let run := save_message "t0" (OpenFails OSError) "r1" alice_hello s in
  run.1 = Ok false /\
  load_room_messages "r1" s = (Ok (VList []), s) /\
  load_room_messages "r1" run.2 =
    (Ok (VList [message_data (VStr "alice") (VStr "hello") "t0" 0]), run.2) /\
  persisted run.2 = None.
Proof. vm_compute. auto. Qed.

(** After the failed save, a save by bob goes through: the file then holds
    alice's message too, the one whose save was reported as failed. *)
Example failed_save_is_written_by_the_next :
  let s := boot None ReadOk in
  let s1 := (save_message "t0" (OpenFails OSError) "r1" alice_hello s).2 in
  let run := save_message "t1" WriteOk "r1" bob_hi s1 in
  run.1 = Ok true /\
  persisted run.2 =
    Some (VDict (<["r1" := VList [message_data (VStr "alice") (VStr "hello") "t0" 0;
                                  message_data (VStr "bob") (VStr "hi") "t1" 1]]> ∅)).
Proof. vm_compute. auto. Qed.

(** A file that is no JSON document: the server starts with an empty store
    and one logged error. *)
Example boot_on_corrupt_file :
  let s := boot (Some None) ReadOk in
  messages s = VDict ∅ /\ log s = [log_invalid_json] /\
  load_room_messages "r1" s = (Ok (VList []), s).
Proof. vm_compute. auto. Qed.

(** A file that is a JSON document but no object, here an array: it becomes
    the store as it is, and looking a room up raises. *)
Example boot_on_array_file :
  let s := boot (Some (Some (VList []))) ReadOk in
  messages s = VList [] /\
  load_room_messages "r1" s = (Raise AttributeError, s) /\
  (save_message "t0" WriteOk "r1" alice_hello s).1 = Ok false.
Proof. vm_compute. auto. Qed.

(** Four calls: to r1 by alice, to r1 by bob while [open] fails, to r2 by
    carol, and to r1 by alice again. *)
Definition four_calls : list call :=
  [Call "t0" WriteOk "r1" alice_hello;
   Call "t1" (OpenFails OSError) "r1" bob_hi;
   Call "t2" WriteOk "r2" carol_yo;
   Call "t3" WriteOk "r1" alice_hello].

(** On these calls r1 gets the ids 0, 1, 2 in the order of the calls, bob's
    unwritten record among them, and carol's call to r2 takes none. *)
Example four_calls_numbering :
  let run := run_saves four_calls (boot None ReadOk) in
  run.1 = [Ok true; Ok false; Ok true; Ok true] /\
  load_room_messages "r1" run.2 =
    (Ok (VList [message_data (VStr "alice") (VStr "hello") "t0" 0;
                message_data (VStr "bob") (VStr "hi") "t1" 1;
                message_data (VStr "alice") (VStr "hello") "t3" 2]), run.2) /\
  load_room_messages "r2" run.2 =
    (Ok (VList [message_data (VStr "carol") (VStr "yo") "t2" 0]), run.2).
Proof. vm_compute. auto. Qed.

(** C2 on the four calls. *)
Lemma C2_sequence_ids_witness :
  numbered (boot None ReadOk) /\
  let run := run_saves four_calls (boot None ReadOk) in
  exists before,
    load_room_messages "r1" (boot None ReadOk) = (Ok (VList before), boot None ReadOk) /\
    load_room_messages "r1" run.2 =
      (Ok (VList (before ++ stored (length before) (appended "r1" four_calls))), run.2) /\
    msg_id <$> (before ++ stored (length before) (appended "r1" four_calls)) =
      ids_upto (length before + length (appended "r1" four_calls)) /\
    run.1 = (fun c => Ok (has_fields c && write_ok (c_write c))) <$> four_calls /\
    numbered run.2.
Proof.
  split; [apply numbered_boot_absent|].
  apply (C2_sequence_ids (boot None ReadOk) four_calls "r1").
  apply numbered_boot_absent.
Defined.

(** On the three calls r1 holds alice's record, then bob's. *)
Lemma replay_of_three_calls :
  load_room_messages "r1" (run_saves three_calls (boot None ReadOk)).2 =
    (Ok (VList [message_data (VStr "alice") (VStr "hello") "t0" 0;
                message_data (VStr "bob") (VStr "hi") "t2" 1]),
     (run_saves three_calls (boot None ReadOk)).2) /\
  length (stored 0 (to_room "r1" three_calls)) = 2.
Proof.
  apply (replay_when_all_saved ReadOk three_calls "r1").
  vm_compute. repeat constructor.
Qed.

(** C3, on the code.  The server starts without a file.  alice's save to r1
    fails on [open] and returns [False]; bob's save to r1 then returns
    [True].  That is one successful append to r1, yet
    [load_room_messages] returns two messages: alice's record was kept. *)
Example C3_failed_append_is_replayed :
  let calls := [Call "t0" (OpenFails OSError) "r1" alice_hello;
                Call "t1" WriteOk "r1" bob_hi] in
  let run := run_saves calls (boot None ReadOk) in
  run.1 = [Ok false; Ok true] /\
  load_room_messages "r1" run.2 =
    (Ok (VList [message_data (VStr "alice") (VStr "hello") "t0" 0;
                message_data (VStr "bob") (VStr "hi") "t1" 1]), run.2).
Proof. vm_compute. auto. Qed.

(** C4 on the same calls. *)
Lemma C4_persist_reload_roundtrip_witness :
  messages (boot (message_file (run_saves three_calls (boot None (ReadFails OSError))).2)
              ReadOk) =
  messages (run_saves three_calls (boot None (ReadFails OSError))).2.
Proof.
  apply (C4_persist_reload_roundtrip None (ReadFails OSError) three_calls).
  - right. discriminate.
  - vm_compute. repeat constructor.
Defined.


(** C6, against the claim as stated: [save_message] makes no check of its
    own.  Called with an empty name and an empty text it returns [True],
    appends the record to the log and writes the store to the file. *)
Example C6_counterexample :
  let s := boot None ReadOk in
  let run := save_message "t0" WriteOk "r1" nameless s in
  truthy (field nameless "name") = false /\
  truthy (field nameless "message") = false /\
  run.1 = Ok true /\
  load_room_messages "r1" run.2 =
    (Ok (VList [message_data (VStr "") (VStr "") "t0" 0]), run.2) /\
  persisted run.2 = Some (messages run.2).
Proof. vm_compute. auto 10. Qed.

(** C6 on the same event, through the handler. *)
Lemma C6_handler_rejects_empty_witness :
  exists s' txt,
    handle_message 1 "t0" WriteOk nameless (boot None ReadOk) = (Ok tt, s') /\
    messages s' = messages (boot None ReadOk) /\
    message_file s' = message_file (boot None ReadOk) /\
    rooms s' = rooms (boot None ReadOk) /\
    outbox s' = outbox (boot None ReadOk) ++ [Delivery "error" (error_payload txt) {[1]}].
Proof.
  apply (C6_handler_rejects_empty 1 "t0" WriteOk nameless (boot None ReadOk)).
  left. reflexivity.
Defined.

(** The join events of the scenarios. *)
Definition join_data (room name : string) : value :=
  VDict (<["room" := VStr room]> (<["name" := VStr name]> ∅)).

(** bob, connection 2, is in room r1. *)
Definition bob_inside : server :=
  (handle_join 2 "t0" (join_data "r1" "bob") (boot None ReadOk)).2.

(** C7, against the claim as stated: bob is in r1 when alice, connection 1,
    joins; the join notice for alice goes to both connections, alice's own
    among them. *)
Example C7_counterexample :
  let run := handle_join 1 "t1" (join_data "r1" "alice") bob_inside in
  run.1 = Ok tt /\
  last (outbox run.2) =
    Some (Delivery "message" (join_message (VStr "alice") "t1") {[1; 2]}) /\
  1 ∈ ({[1; 2]} : gset sid).
Proof. split; [|split]; [vm_compute; reflexivity..|set_solver]. Qed.

(** C7 on the same join. *)
Lemma C7_join_notice_reaches_joiner_witness :
  exists s' earlier to,
    handle_join 1 "t1" (join_data "r1" "alice") bob_inside = (Ok tt, s') /\
    outbox s' = earlier ++ [Delivery "message" (join_message (VStr "alice") "t1") to] /\
    to = {[1]} ∪ members "r1" bob_inside /\ members "r1" s' = to /\ 1 ∈ to.
Proof.
  exact (C7_join_notice_reaches_joiner 1 "t1"
           (<["room" := VStr "r1"]> (<["name" := VStr "alice"]> ∅)) "r1" bob_inside ∅
           eq_refl eq_refl eq_refl eq_refl).
Defined.

(** C9, against the claim as stated: alice joins r1, which has no history.
    The join succeeds, the log of r1 is the empty list, and the only event
    sent is the join notice: there is no [chat_history] event. *)
Example C9_counterexample :
  let s := boot None ReadOk in
  let run := handle_join 1 "t0" (join_data "r1" "alice") s in
  run.1 = Ok tt /\
  load_room_messages "r1" run.2 = (Ok (VList []), run.2) /\
  outbox run.2 = [Delivery "message" (join_message (VStr "alice") "t0") {[1]}] /\
  filter (fun x => event x = "chat_history") (outbox run.2) = [].
Proof. vm_compute. auto. Qed.

(** r1 holds alice's message, sent and saved before bob joins. *)
Definition alice_wrote : server :=
  (handle_message 1 "t0" WriteOk alice_hello
     (handle_join 1 "t0" (join_data "r1" "alice") (boot None ReadOk)).2).2.

(** C9 when bob joins r1 after alice wrote. *)
Lemma C9_chat_history_only_when_nonempty_witness :
  exists s' new,
    handle_join 2 "t1" (join_data "r1" "bob") alice_wrote = (Ok tt, s') /\
    outbox s' = outbox alice_wrote ++ new /\
    filter (fun x => event x = "chat_history") new =
      [Delivery "chat_history"
         (VList [message_data (VStr "alice") (VStr "hello") "t0" 0]) {[2]}].
Proof.
  exact (C9_chat_history_only_when_nonempty 2 "t1"
           (<["room" := VStr "r1"]> (<["name" := VStr "bob"]> ∅)) "r1" alice_wrote
           (<["r1" := VList [message_data (VStr "alice") (VStr "hello") "t0" 0]]> ∅)
           eq_refl eq_refl eq_refl eq_refl).
Defined.

(** C8, against the claim as stated: alice is in r1 and sends hello.  What
    the room receives is the event as alice sent it, with its room field and
    without a timestamp; the record in the log has the timestamp and the id
    and no room field. *)
Example C8_counterexample :
  let s := (handle_join 1 "t0" (join_data "r1" "alice") (boot None ReadOk)).2 in
  let run := handle_message 1 "t1" WriteOk alice_hello s in
  run.1 = Ok tt /\
  last (outbox run.2) = Some (Delivery "message" alice_hello {[1]}) /\
  load_room_messages "r1" run.2 =
    (Ok (VList [message_data (VStr "alice") (VStr "hello") "t1" 0]), run.2) /\
  field alice_hello "timestamp" = VNone /\
  field (message_data (VStr "alice") (VStr "hello") "t1" 0) "timestamp" = VStr "t1".
Proof. vm_compute. auto 10. Qed.

(** C8 when bob sends hi after alice wrote. *)
Lemma C8_broadcast_is_inbound_data_witness :
  exists s',
    handle_message 2 "t1" WriteOk bob_hi alice_wrote = (Ok tt, s') /\
    outbox s' = outbox alice_wrote ++ [Delivery "message" bob_hi (members "r1" alice_wrote)] /\
    load_room_messages "r1" s' =
      (Ok (VList [message_data (VStr "alice") (VStr "hello") "t0" 0;
                  message_data (VStr "bob") (VStr "hi") "t1" 1]), s').
Proof.
  exact (C8_broadcast_is_inbound_data 2 "t1"
           (<["room" := VStr "r1"]> (<["name" := VStr "bob"]> (<["message" := VStr "hi"]> ∅)))
           "r1" alice_wrote
           (<["r1" := VList [message_data (VStr "alice") (VStr "hello") "t0" 0]]> ∅)
           [message_data (VStr "alice") (VStr "hello") "t0" 0]
           eq_refl eq_refl eq_refl eq_refl eq_refl eq_refl).
Defined.

End Scenarios.

Set Warnings "-clear-no-such-hyp".

(** ** Further properties of [MessageServer] *)

Section MessageServerMore.
Context {rt : PyRuntime}.

Ltac run :=
  unfold boot, do_call, __init__, save_message, load_room_messages, _load_all_messages, read_json,
    write_json, try_except, bind, gets, lift, raise, when, modify, ret in *;
  simpl in *.

(** A call that does not reach the append: it returns [False], logs the
    exception, and leaves all but the log as it was, but for an empty log it
    may have made for the room. *)
Lemma save_message_rejects (now : string) (w : write_outcome) (room : string)
    (message : value) (s : server) :
  (exists d l name msg,
      messages s = VDict d /\ log_of d room = Some l /\
      py_getitem message "name" = Ok name /\ py_getitem message "message" = Ok msg) \/
  (exists e s1,
      save_message now w room message s = (Ok false, add_log (log_save_error e) s1) /\
      message_file s1 = message_file s /\ rooms s1 = rooms s /\ outbox s1 = outbox s /\
      log s1 = log s /\
      (s1 = s \/
       exists d, messages s = VDict d /\ d !! room = None /\
                 messages s1 = VDict (<[room := VList []]> d))).
Proof.
  destruct (messages s) as [| | | | |l0|d] eqn:Hd.
  7: {
    destruct (log_of d room) as [l|] eqn:Hl.
    - destruct (py_getitem message "name") as [name|e|] eqn:Hn;
        [destruct (py_getitem message "message") as [msg|e|] eqn:Hm|..];
        [left; eauto 10|..];
        try (exfalso; by eapply py_getitem_not_stuck);
        right; unfold log_of in Hl; run; rewrite Hd; simpl;
        destruct (d !! room) as [v|] eqn:Hr; simpl; rewrite ?Hn, ?Hm; simpl;
        (eexists _, _; split; [reflexivity|]); simpl; rewrite ?Hd; eauto 10.
    - right. unfold log_of in Hl. run. rewrite Hd. simpl.
      destruct (d !! room) as [v|] eqn:Hr; [|discriminate]. simpl.
      destruct (py_getitem message "name") as [name|e|] eqn:Hn; simpl;
        [destruct (py_getitem message "message") as [msg|e|] eqn:Hm; simpl|..];
        try (exfalso; by eapply py_getitem_not_stuck);
        rewrite ?Hd; simpl; rewrite ?Hr; simpl.
      all: destruct v; try discriminate; simpl.
      all: (eexists _, _; split; [reflexivity|]); simpl; rewrite ?Hd; eauto 10.
  }
  all: right; run; rewrite Hd; simpl.
  all: try ((eexists _, _; split; [reflexivity|]); simpl; rewrite ?Hd; by eauto 10).
  all: match goal with |- context [negb ?b] => destruct b end; simpl.
  all: try ((eexists _, _; split; [reflexivity|]); simpl; rewrite ?Hd; by eauto 10).
  all: destruct (py_getitem message "name") as [name|e|] eqn:Hn; simpl;
        [destruct (py_getitem message "message") as [msg|e|] eqn:Hm; simpl|..];
        try (exfalso; by eapply py_getitem_not_stuck);
        rewrite ?Hd; simpl.
  all: (eexists _, _; split; [reflexivity|]); simpl; rewrite ?Hd; by eauto 10.
Qed.


Lemma save_message_result (now : string) (w : write_outcome)
    (room : string) (message : value) (s : server) :
  exists b s',
    save_message now w room message s = (Ok b, s') /\
    rooms s' = rooms s /\ outbox s' = outbox s /\
    (b = true /\ log s' = log s \/
     b = false /\ exists e, log s' = log s ++ [log_save_error e]).
Proof.
  destruct (save_message_rejects now w room message s)
    as [(d & l & name & msg & Hd & Hl & Hn & Hm)|(e & s1 & Hrun & _ & Hr & Ho & Hlog & _)].
  - rewrite (save_message_appends _ _ _ _ _ _ _ _ _ Hd Hl Hn Hm).
    destruct w; simpl; eexists _, _; (split; [reflexivity|]); simpl; eauto 10.
  - rewrite Hrun. eexists _, _. split; [reflexivity|]. simpl. rewrite Hlog. eauto 10.
Qed.

(** X1. No exception leaves [save_message]: whatever the store holds, the
    message is and the disk does, it returns [True] or [False].  It never
    touches the membership or the outbox; it logs nothing when it returns
    [True] and exactly one error when it returns [False]. *)
Theorem X1_save_message_never_raises (now : string) (w : write_outcome)
    (room : string) (message : value) (s : server) :
  exists b s',
    save_message now w room message s = (Ok b, s') /\
    rooms s' = rooms s /\ outbox s' = outbox s /\
    (b = true /\ log s' = log s \/
     b = false /\ exists e, log s' = log s ++ [log_save_error e]).
Proof. apply save_message_result. Qed.

(** X2. [save_message] returns [True] exactly when the store is a dictionary
    whose entry for the room is a list or is missing, the message has the
    keys [name] and [message], and the file is written. *)
Theorem X2_save_message_true_iff (now : string) (w : write_outcome)
    (room : string) (message : value) (s : server) :
  (save_message now w room message s).1 = Ok true <->
  w = WriteOk /\
  (exists d l, messages s = VDict d /\ log_of d room = Some l) /\
  (exists name, py_getitem message "name" = Ok name) /\
  (exists msg, py_getitem message "message" = Ok msg).
Proof.
  split.
  - intros Hrun. destruct (save_message now w room message s) as [o s'] eqn:Heq.
    simpl in Hrun. subst o.
    apply save_message_true_inv in Heq
      as (d & l & name & msg & Hd & Hl & Hn & Hm & Hw & _). eauto 10.
  - intros (-> & (d & l & Hd & Hl) & (name & Hn) & (msg & Hm)).
    by rewrite (save_message_appends _ _ _ _ _ _ _ _ _ Hd Hl Hn Hm).
Qed.

(** X3. When the record is appended and the write then fails, the call
    returns [False] and the record stays in the log of the room; if it was
    [open] that failed, the file is as it was. *)
Theorem X3_failed_write_keeps_record (now : string) (w : write_outcome)
    (room : string) (message : value) (s : server)
    (d : gmap string value) (l : list value) (name msg : value) :
  messages s = VDict d -> log_of d room = Some l ->
  py_getitem message "name" = Ok name -> py_getitem message "message" = Ok msg ->
  w <> WriteOk ->
  exists s',
    save_message now w room message s = (Ok false, s') /\
    load_room_messages room s' =
      (Ok (VList (l ++ [message_data name msg now (length l)])), s') /\
    (forall e, w = OpenFails e -> message_file s' = message_file s).
Proof.
  intros Hd Hl Hn Hm Hw.
  rewrite (save_message_appends _ _ _ _ _ _ _ _ _ Hd Hl Hn Hm).
  destruct w as [|e|e partial]; [done|..]; simpl;
    (eexists; split; [reflexivity|]; split;
      [eapply load_room_messages_log_of; [reflexivity|];
       unfold log_of; by rewrite lookup_insert_eq
      |by intros]).
Qed.


(** X5. On a store that is not a dictionary (a file holding a JSON array, a
    number, a string, ...), [save_message] returns [False], logs the
    exception and changes nothing else, and [load_room_messages] raises
    [AttributeError]. *)
Theorem X5_store_not_a_dictionary (now : string) (w : write_outcome)
    (room : string) (message : value) (s : server) :
  (forall d, messages s <> VDict d) ->
  (exists e, save_message now w room message s
             = (Ok false, add_log (log_save_error e) s)) /\
  load_room_messages room s = (Raise AttributeError, s).
Proof.
  intros Hnd. split.
  - destruct (save_message_rejects now w room message s)
      as [(d & l & name & msg & Hd & _)|(e & s1 & Hrun & _ & _ & _ & _ & [->|(d & Hd & _)])].
    + by destruct (Hnd d).
    + eauto.
    + by destruct (Hnd d).
  - run. destruct (messages s) eqn:Hd; try done. by destruct (Hnd d).
Qed.

(** X6. A message without the key [name] or [message]: [save_message]
    returns [False] and writes nothing, and every room replays as before.
    Yet a room that had no entry in the store has an empty log afterwards. *)
Theorem X6_missing_key (now : string) (w : write_outcome) (room : string)
    (m : gmap string value) (s : server) (d : gmap string value) :
  messages s = VDict d ->
  m !! "name" = None \/ m !! "message" = None ->
  exists s',
    save_message now w room (VDict m) s = (Ok false, s') /\
    message_file s' = message_file s /\
    (forall r, (load_room_messages r s').1 = (load_room_messages r s).1) /\
    (d !! room = None -> messages s' = VDict (<[room := VList []]> d)).
Proof.
  intros Hd Hmiss.
  run. rewrite Hd. simpl.
  destruct (d !! room) as [v|] eqn:Hr; simpl;
    (destruct Hmiss as [Hnone|Hnone];
      [rewrite Hnone|destruct (m !! "name"); simpl; rewrite ?Hnone]); simpl;
    (eexists; split; [reflexivity|]); simpl; (split; [done|]); rewrite ?Hd;
    (split; [|done]); intros r; simpl; try done.
  all: destruct (decide (r = room)) as [->|Hne];
    [by rewrite lookup_insert_eq, Hr|by rewrite lookup_insert_ne].
Qed.

(** X7. Ids go on without a gap over a restart: after calls that all
    returned [True], a server started from the file they wrote, and put
    through any further calls, again has every room's log numbered
    0, 1, 2, ... *)
Theorem X7_ids_continue_after_restart (s : server) (calls calls2 : list call)
    (r : string) :
  numbered s -> calls <> [] ->
  Forall (fun o => o = Ok true) (run_saves calls s).1 ->
  let restarted := boot (message_file (run_saves calls s).2) ReadOk in
  messages restarted = messages (run_saves calls s).2 /\
  exists ms,
    load_room_messages r (run_saves calls2 restarted).2 =
      (Ok (VList ms), (run_saves calls2 restarted).2) /\
    msg_id <$> ms = ids_upto (length ms).
Proof.
  intros Hnum Hne Hall restarted.
  assert (messages restarted = messages (run_saves calls s).2) as Hsame.
  { by apply run_saves_in_sync_nonempty. }
  split; [done|]. apply numbered_replay, run_saves_numbered.
  destruct (run_saves_numbered calls s Hnum) as (d & Hd & Hlogs).
  exists d. split; [congruence|done].
Qed.

End MessageServerMore.

(** ** Further properties of the handlers *)

Section HandlerMore.
Context {rt : PyRuntime}.

Ltac run_handler :=
  unfold handle_message, handle_join, handle_leave, room_name, send, emit, join_room,
    leave_room, try_except, bind, gets, lift, raise, when, modify, ret in *;
  simpl in *.

Lemma members_leave (self : sid) (r r' : string) (s : server) :
  members r'
    (set_rooms (if decide (members r s ∖ {[self]} = ∅) then delete r (rooms s)
                else <[r := members r s ∖ {[self]}]> (rooms s)) s)
  = if decide (r' = r) then members r s ∖ {[self]} else members r' s.
Proof.
  unfold members at 1. simpl.
  destruct (decide (r' = r)) as [->|Hne]; case_decide as Hrest.
  - by rewrite lookup_delete_eq, Hrest.
  - by rewrite lookup_insert_eq.
  - by rewrite lookup_delete_ne.
  - by rewrite lookup_insert_ne.
Qed.

Lemma members_join (self : sid) (r r' : string) (s : server) :
  members r' (set_rooms (<[r := {[self]} ∪ members r s]> (rooms s)) s)
  = if decide (r' = r) then {[self]} ∪ members r s else members r' s.
Proof.
  unfold members at 1. simpl. case_decide as Hr.
  - subst. by rewrite lookup_insert_eq.
  - by rewrite lookup_insert_ne.
Qed.

(** A leave event that passes the checks of the handler. *)
Lemma handle_leave_valid (self : sid) (now : string) (d : gmap string value)
    (r : string) (s : server) :
  d !! "room" = Some (VStr r) -> truthy (VStr r) = true ->
  truthy (default VNone (d !! "name")) = true ->
  handle_leave self now (VDict d) s =
    let name := default VNone (d !! "name") in
    let rest := members r s ∖ {[self]} in
    (Ok (Some (log_left name (VStr r))),
     Server (messages s) (message_file s) (log s)
       (if decide (rest = ∅) then delete r (rooms s) else <[r := rest]> (rooms s))
       (outbox s ++ [Delivery "message" (leave_message name now) rest])).
Proof.
  intros Hroom Hr Hname. run_handler. rewrite Hroom. simpl.
  simpl in Hr. rewrite Hr, Hname. simpl.
  rewrite (members_leave self r r s). rewrite decide_True by done.
  reflexivity.
Qed.


Lemma room_is_str_dict (d : gmap string value) :
  room_is_str (VDict d) -> truthy (default VNone (d !! "room")) = true ->
  exists r, d !! "room" = Some (VStr r).
Proof.
  intros [[r Hr]|Hfalse] Htrue; simpl in *; [|congruence].
  exists r. destruct (d !! "room"); simpl in *; congruence.
Qed.

(** X8. A message event gets exactly one event in answer, and no exception
    leaves the handler: either an [error] event to the sender alone, or the
    inbound data sent to the members of the room.  The membership is not
    changed. *)
Theorem X8_handle_message_one_event (self : sid) (now : string) (w : write_outcome)
    (data : value) (s : server) :
  room_is_str data ->
  exists s' out,
    handle_message self now w data s = (Ok tt, s') /\
    outbox s' = outbox s ++ [out] /\ rooms s' = rooms s /\
    ((event out = "error" /\ dest out = {[self]}) \/
     (exists r, field data "room" = VStr r /\
                out = Delivery "message" data (members r s))).
Proof.
  intros Hstr.
  destruct data as [| | | | | |d];
    try (run_handler; eexists _, _; split; [reflexivity|]; by auto).
  destruct (truthy (default VNone (d !! "room"))) eqn:Hroom.
  2: { run_handler. rewrite Hroom. simpl. eexists _, _. split; [reflexivity|]. by auto. }
  destruct (room_is_str_dict d Hstr Hroom) as [r Hr].
  rewrite Hr in Hroom. simpl in Hroom.
  destruct (truthy (default VNone (d !! "name"))) eqn:Hname.
  2: { run_handler. rewrite Hr. simpl. rewrite Hroom, Hname. simpl.
       eexists _, _. split; [reflexivity|]. by auto. }
  destruct (truthy (default VNone (d !! "message"))) eqn:Hmsg.
  2: { run_handler. rewrite Hr. simpl. rewrite Hroom, Hname, Hmsg. simpl.
       eexists _, _. split; [reflexivity|]. by auto. }
  rewrite (handle_message_valid _ _ _ _ _ _ Hr Hroom Hname Hmsg). simpl.
  destruct (save_message_result now w r (VDict d)
              (add_log (log_message_received (VStr r) (VDict d)) s))
    as (b & s1 & -> & Hrooms & Hout & _).
  destruct b; eexists _, _; (split; [reflexivity|]); simpl; rewrite Hout, Hrooms;
    (split; [done|]); (split; [done|]).
  - right. exists r. simpl. rewrite Hr. split; [done|].
    unfold members. by rewrite Hrooms.
  - by left.
Qed.

(** X9. No exception leaves [handle_join] or [handle_leave] either, so the
    handler registered with [on_error] has nothing to do for these events. *)
Theorem X9_join_and_leave_never_raise (self : sid) (now : string)
    (data : value) (s : server) :
  room_is_str data ->
  (handle_join self now data s).1 = Ok tt /\
  exists record, (handle_leave self now data s).1 = Ok record.
Proof.
  intros Hstr.
  destruct data as [| | | | | |d]; try (run_handler; by eauto).
  destruct (truthy (default VNone (d !! "room"))) eqn:Hroom.
  2: { run_handler. rewrite Hroom. simpl. by eauto. }
  destruct (room_is_str_dict d Hstr Hroom) as [r Hr].
  rewrite Hr in Hroom. simpl in Hroom.
  destruct (truthy (default VNone (d !! "name"))) eqn:Hname.
  2: { run_handler. rewrite Hr. simpl. rewrite Hroom, Hname. simpl. by eauto. }
  split.
  - run_handler. rewrite Hr. simpl. rewrite Hroom, Hname. simpl.
    unfold load_room_messages, bind, gets, lift. simpl.
    destruct (messages s); simpl; try done.
    by destruct (truthy (default (VList []) (d0 !! r))).
  - rewrite (handle_leave_valid _ _ _ _ _ Hr Hroom Hname). simpl. by eauto.
Qed.


(** X10. A message whose save failed on [open] is reported to its sender as
    not saved and is sent to nobody; yet it is in the log, and the next
    connection to join the room gets it in its [chat_history]. *)
Theorem X10_unsaved_message_replayed_to_joiner (self other : sid) (now now2 : string)
    (e : exn) (d jd : gmap string value) (r : string) (s : server)
    (store : gmap string value) (l : list value) :
  d !! "room" = Some (VStr r) -> truthy (VStr r) = true ->
  truthy (default VNone (d !! "name")) = true ->
  truthy (default VNone (d !! "message")) = true ->
  messages s = VDict store -> log_of store r = Some l ->
  jd !! "room" = Some (VStr r) -> truthy (default VNone (jd !! "name")) = true ->
  let s1 := (handle_message self now (OpenFails e) (VDict d) s).2 in
  let record := message_data (default VNone (d !! "name"))
                  (default VNone (d !! "message")) now (length l) in
  outbox s1 =
    outbox s ++ [Delivery "error" (error_payload "Failed to save message") {[self]}] /\
  message_file s1 = message_file s /\
  exists s2,
    handle_join other now2 (VDict jd) s1 = (Ok tt, s2) /\
    Delivery "chat_history" (VList (l ++ [record])) {[other]} ∈ outbox s2.
Proof.
  intros Hroom Hr Hname Hmsg Hstore Hl Hjroom Hjname s1 record.
  assert (forall k, truthy (default VNone (d !! k)) = true ->
                    py_getitem (VDict d) k = Ok (default VNone (d !! k))) as Hget.
  { intros k. simpl. destruct (d !! k); [done|discriminate]. }
  subst s1. rewrite (handle_message_valid _ _ _ _ _ _ Hroom Hr Hname Hmsg). simpl.
  erewrite save_message_appends; [|exact Hstore|exact Hl|by apply Hget|by apply Hget].
  simpl. split; [done|]. split; [done|].
  erewrite handle_join_valid; [|exact Hjroom|exact Hr|exact Hjname|reflexivity].
  simpl. rewrite lookup_insert_eq. simpl.
  eexists. split; [reflexivity|]. simpl.
  assert (forall x : value, negb (length (l ++ [x]) =? 0) = true) as Hnz.
  { intros x. rewrite length_app. simpl. by rewrite Nat.add_1_r. }
  rewrite Hnz, !elem_of_app. right. left. constructor.
Qed.

(** X11. A join or leave event whose room or name is missing or empty gets
    one [error] event, to its sender alone; nobody enters or leaves a room
    and the store is as before. *)
Theorem X11_join_leave_reject_incomplete (self : sid) (now : string)
    (data : value) (s : server) :
  truthy (field data "room") = false \/ truthy (field data "name") = false ->
  (exists s' txt,
     handle_join self now data s = (Ok tt, s') /\
     rooms s' = rooms s /\ messages s' = messages s /\
     outbox s' = outbox s ++ [Delivery "error" (error_payload txt) {[self]}]) /\
  (exists s' txt record,
     handle_leave self now data s = (Ok record, s') /\
     rooms s' = rooms s /\ messages s' = messages s /\
     outbox s' = outbox s ++ [Delivery "error" (error_payload txt) {[self]}]).
Proof.
  intros Hempty.
  destruct data as [| | | | | |d];
    try (run_handler; split; eexists _, _; [|eexists]; (split; [reflexivity|]); done).
  simpl in Hempty. run_handler.
  destruct Hempty as [-> | ->]; simpl; rewrite ?orb_true_r; simpl;
    split; eexists _, _; [|eexists| |eexists]; (split; [reflexivity|]); done.
Qed.

(** X12. Joining and leaving never change the store or the file, whatever
    the event: the notices they send are not part of any room's history. *)
Theorem X12_join_leave_keep_store (self : sid) (now : string)
    (data : value) (s : server) :
  messages (handle_join self now data s).2 = messages s /\
  message_file (handle_join self now data s).2 = message_file s /\
  messages (handle_leave self now data s).2 = messages s /\
  message_file (handle_leave self now data s).2 = message_file s.
Proof.
  destruct data as [| | | | | |d]; try (run_handler; done).
  run_handler.
  destruct (truthy (default VNone (d !! "room"))); simpl; [|done].
  destruct (truthy (default VNone (d !! "name"))); simpl; [|done].
  destruct (default VNone (d !! "room")); simpl; try done.
  unfold load_room_messages, bind, gets, lift. simpl.
  destruct (messages s) eqn:Hd; simpl; rewrite ?Hd; try done.
  destruct (truthy (default (VList []) (d0 !! s0))); simpl; by rewrite ?Hd.
Qed.

(** X13. When the store is not a dictionary, a join event is answered with
    the [error] event of a failed join and nothing else, but the connection
    has been put in the room. *)
Theorem X13_join_on_broken_store (self : sid) (now : string)
    (d : gmap string value) (r : string) (s : server) :
  d !! "room" = Some (VStr r) -> truthy (VStr r) = true ->
  truthy (default VNone (d !! "name")) = true ->
  (forall store, messages s <> VDict store) ->
  exists s',
    handle_join self now (VDict d) s = (Ok tt, s') /\
    outbox s' =
      outbox s ++ [Delivery "error" (error_payload "Failed to join room") {[self]}] /\
    members r s' = {[self]} ∪ members r s.
Proof.
  intros Hroom Hr Hname Hnd. run_handler. rewrite Hroom. simpl.
  simpl in Hr. rewrite Hr, Hname. simpl.
  unfold load_room_messages, bind, gets, lift. simpl.
  destruct (messages s) eqn:Hd; simpl; try (by destruct (Hnd d0));
    (eexists; split; [reflexivity|]; split; [done|]);
    unfold members; simpl; by rewrite lookup_insert_eq.
Qed.

Lemma handle_join_members (self : sid) (now : string) (d : gmap string value)
    (r r' : string) (s : server) :
  d !! "room" = Some (VStr r) -> truthy (VStr r) = true ->
  truthy (default VNone (d !! "name")) = true ->
  members r' (handle_join self now (VDict d) s).2
  = if decide (r' = r) then {[self]} ∪ members r s else members r' s.
Proof.
  intros Hroom Hr Hname. rewrite <- (members_join self r r' s).
  run_handler. rewrite Hroom. simpl. rewrite Hr, Hname. simpl.
  unfold load_room_messages, bind, gets, lift. simpl.
  destruct (messages s); simpl; try done.
  by destruct (truthy (default (VList []) (d0 !! r))).
Qed.

Lemma handle_leave_members (self : sid) (now : string) (d : gmap string value)
    (r r' : string) (s : server) :
  d !! "room" = Some (VStr r) -> truthy (VStr r) = true ->
  truthy (default VNone (d !! "name")) = true ->
  members r' (handle_leave self now (VDict d) s).2
  = if decide (r' = r) then members r s ∖ {[self]} else members r' s.
Proof.
  intros Hroom Hr Hname. rewrite <- (members_leave self r r' s).
  by rewrite (handle_leave_valid _ _ _ _ _ Hroom Hr Hname).
Qed.

(** X14. A leave event takes the connection out of the room and then sends
    the notice to the room: to the members that remain, not to the one that
    leaves.  There is no check that the connection was in the room.  The
    other rooms and the store are as before. *)
Theorem X14_leave_notice_to_remaining (self : sid) (now : string)
    (d : gmap string value) (r : string) (s : server) :
  d !! "room" = Some (VStr r) -> truthy (VStr r) = true ->
  truthy (default VNone (d !! "name")) = true ->
  exists s',
    handle_leave self now (VDict d) s
      = (Ok (Some (log_left (default VNone (d !! "name")) (VStr r))), s') /\
    outbox s' =
      outbox s ++ [Delivery "message" (leave_message (default VNone (d !! "name")) now)
                     (members r s ∖ {[self]})] /\
    members r s' = members r s ∖ {[self]} /\
    (forall r', r' <> r -> members r' s' = members r' s) /\
    messages s' = messages s.
Proof.
  intros Hroom Hr Hname.
  rewrite (handle_leave_valid _ _ _ _ _ Hroom Hr Hname). simpl.
  eexists. split; [reflexivity|]. simpl. split; [done|].
  pose proof (members_leave self r) as Hm. unfold set_rooms, members in Hm. simpl in Hm.
  unfold members. simpl. split; [|split; [|done]].
  - rewrite (Hm r s). by rewrite decide_True.
  - intros r' Hne. rewrite (Hm r' s). by rewrite decide_False.
Qed.

(** X15. Join, then leave: the membership of every room is what it was,
    less the connection.  For a connection that was not in the room the
    membership is back as it was. *)
Theorem X15_join_then_leave (self : sid) (now now2 : string)
    (jd ld : gmap string value) (r : string) (s : server) :
  jd !! "room" = Some (VStr r) -> ld !! "room" = Some (VStr r) ->
  truthy (VStr r) = true ->
  truthy (default VNone (jd !! "name")) = true ->
  truthy (default VNone (ld !! "name")) = true ->
  let s2 := (handle_leave self now2 (VDict ld) (handle_join self now (VDict jd) s).2).2 in
  (forall r', members r' s2 = if decide (r' = r) then members r s ∖ {[self]}
                              else members r' s) /\
  (self ∉ members r s -> forall r', members r' s2 = members r' s).
Proof.
  intros Hjroom Hlroom Hr Hjname Hlname. cbv zeta.
  set (s2 := (handle_leave self now2 (VDict ld) _).2).
  assert (forall r', members r' s2 = if decide (r' = r) then members r s ∖ {[self]}
                                     else members r' s) as Hall.
  { intros r'. subst s2.
    rewrite (handle_leave_members _ _ _ r) by done.
    rewrite !(handle_join_members _ _ _ r) by done.
    case_decide; [|done]. rewrite decide_True by done.
    generalize (members r s). clear. intros X. set_solver. }
  clearbody s2.
  split; [done|]. intros Hnot r'. rewrite Hall. case_decide; [subst r'|done].
  revert Hnot. generalize (members r s). clear. intros X HX. set_solver.
Qed.

(** X16. A join event that passes the checks of the handler changes the
    membership of its room only, by adding the connection; joining again
    changes nothing more.  This holds whatever the store is. *)
Theorem X16_join_membership (self : sid) (now now2 : string)
    (d : gmap string value) (r : string) (s : server) :
  d !! "room" = Some (VStr r) -> truthy (VStr r) = true ->
  truthy (default VNone (d !! "name")) = true ->
  let s1 := (handle_join self now (VDict d) s).2 in
  let s2 := (handle_join self now2 (VDict d) s1).2 in
  (forall r', members r' s1 = if decide (r' = r) then {[self]} ∪ members r s
                              else members r' s) /\
  (forall r', members r' s2 = members r' s1).
Proof.
  intros Hroom Hr Hname. cbv zeta. split.
  { intros r'. by apply handle_join_members. }
  intros r'. rewrite (handle_join_members _ _ _ r) by done.
  case_decide as Hrr; [|done].
  subst r'. rewrite (handle_join_members _ _ _ r), decide_True by done.
  generalize (members r s). clear. intros X. set_solver.
Qed.

End HandlerMore.

(** ** The client's connection attempts *)

Module ClientFacts.
Import Client.

Lemma connect_cases (connects : nat -> bool) :
  connect_to_server false connects =
    if connects 0 then (true, [info_connecting; connect])
    else if connects 1 then
      (true, [info_connecting; connect; error_retrying; sleep;
              info_connecting; connect])
    else if connects 2 then
      (true, [info_connecting; connect; error_retrying; sleep;
              info_connecting; connect; error_retrying; sleep;
              info_connecting; connect])
    else
      (false, [info_connecting; connect; error_retrying; sleep;
               info_connecting; connect; error_retrying; sleep;
               info_connecting; connect; error_max_retries]).
Proof.
  unfold connect_to_server, max_retries. simpl.
  destruct (connects 0); [done|]. destruct (connects 1); [done|].
  by destruct (connects 2).
Qed.

(** X17. [connect_to_server] returns [True] exactly when the client was not
    connected and one of at most three calls of [sio.connect] succeeds.  On a
    client that is connected already it returns [False] without a call. *)
Theorem X17_connect_result (connected : bool) (connects : nat -> bool) :
  ((connect_to_server connected connects).1 = true <->
   connected = false /\
   (connects 0 = true \/ connects 1 = true \/ connects 2 = true)) /\
  (connected = true -> connect_to_server connected connects = (false, [])).
Proof.
  split; [|by intros ->].
  destruct connected; [simpl; naive_solver|].
  rewrite connect_cases.
  destruct (connects 0), (connects 1), (connects 2); simpl; naive_solver.
Qed.

(** X18. [connect_to_server] calls [sio.connect] at most three times and
    stops at the first call that succeeds: after [i] failed calls and a
    success it has made [i + 1] calls.  It sleeps one second between two
    calls only, so at most twice, and not after the last failure; giving up
    is logged once, and only when it returns [False]. *)
Theorem X18_connect_effort (connected : bool) (connects : nat -> bool) :
  let run := connect_to_server connected connects in
  count connect run.2 <= max_retries /\
  count sleep run.2 = count connect run.2 - 1 /\
  count info_connecting run.2 = count connect run.2 /\
  count error_max_retries run.2 =
    (if run.1 || connected then 0 else 1) /\
  (forall i, i < max_retries -> connected = false ->
     connects i = true -> (forall j, j < i -> connects j = false) ->
     run.1 = true /\ count connect run.2 = S i).
Proof.
  destruct connected.
  { simpl. unfold max_retries. repeat split; try done; vm_compute; lia. }
  cbv zeta. rewrite connect_cases. unfold max_retries.
  destruct (connects 0) eqn:H0, (connects 1) eqn:H1, (connects 2) eqn:H2; simpl;
    (split; [vm_compute; lia|]); (split; [done|]); (split; [done|]); (split; [done|]);
    intros i Hi _ Hc Hfail;
    (destruct i as [|[|[|i]]]; [..|lia]);
    try (rewrite Hc in *; discriminate);
    try (specialize (Hfail 0 ltac:(lia)); congruence);
    try (specialize (Hfail 1 ltac:(lia)); congruence);
    by vm_compute.
Qed.

End ClientFacts.

(** ** The further properties on concrete inputs *)

Section MoreScenarios.
#[local] Existing Instance doc_runtime.

(** A server whose file held a JSON array. *)
Definition array_store : server := boot (Some (Some (VList []))) ReadOk.

(** alice's message, without its text. *)
Definition no_text : gmap string value := <["name" := VStr "alice"]> ∅.

Definition alice_fields : gmap string value :=
  <["room" := VStr "r1"]> (<["name" := VStr "alice"]> (<["message" := VStr "hello"]> ∅)).
Definition alice_joins : gmap string value :=
  <["room" := VStr "r1"]> (<["name" := VStr "alice"]> ∅).
Definition bob_joins : gmap string value :=
  <["room" := VStr "r1"]> (<["name" := VStr "bob"]> ∅).

(** X3 when [open] fails on the first save of a new server. *)
Lemma X3_failed_write_keeps_record_witness :
  exists s',
    save_message "t0" (OpenFails OSError) "r1" alice_hello (boot None ReadOk)
      = (Ok false, s') /\
    load_room_messages "r1" s' =
      (Ok (VList ([] ++ [message_data (VStr "alice") (VStr "hello") "t0" 0])), s') /\
    (forall e, OpenFails OSError = OpenFails e ->
               message_file s' = message_file (boot None ReadOk)).
Proof.
  exact (X3_failed_write_keeps_record "t0" (OpenFails OSError) "r1" alice_hello
           (boot None ReadOk) ∅ [] (VStr "alice") (VStr "hello")
           eq_refl eq_refl eq_refl eq_refl ltac:(discriminate)).
Defined.


(** X5 on a store that is a list. *)
Lemma X5_store_not_a_dictionary_witness :
  (exists e, save_message "t0" WriteOk "r1" alice_hello array_store
             = (Ok false, add_log (log_save_error e) array_store)) /\
  load_room_messages "r1" array_store = (Raise AttributeError, array_store).
Proof.
  apply (X5_store_not_a_dictionary "t0" WriteOk "r1" alice_hello array_store).
  intros d. discriminate.
Defined.

(** X6 on a message that has a name and no text. *)
Lemma X6_missing_key_witness :
  exists s',
    save_message "t0" WriteOk "r1" (VDict no_text) (boot None ReadOk) = (Ok false, s') /\
    message_file s' = message_file (boot None ReadOk) /\
    (forall r, (load_room_messages r s').1 = (load_room_messages r (boot None ReadOk)).1) /\
    ((∅ : gmap string value) !! "r1" = None ->
     messages s' = VDict (<["r1" := VList []]> ∅)).
Proof.
  apply (X6_missing_key "t0" WriteOk "r1" no_text (boot None ReadOk) ∅).
  - reflexivity.
  - right. reflexivity.
Defined.

(** X7 when bob writes to r1 after a restart. *)
Lemma X7_ids_continue_after_restart_witness :
  let restarted :=
    boot (message_file (run_saves three_calls (boot None ReadOk)).2) ReadOk in
  messages restarted = messages (run_saves three_calls (boot None ReadOk)).2 /\
  exists ms,
    load_room_messages "r1"
      (run_saves [Call "t3" WriteOk "r1" bob_hi] restarted).2 =
      (Ok (VList ms), (run_saves [Call "t3" WriteOk "r1" bob_hi] restarted).2) /\
    msg_id <$> ms = ids_upto (length ms).
Proof.
  apply (X7_ids_continue_after_restart (boot None ReadOk) three_calls
           [Call "t3" WriteOk "r1" bob_hi] "r1").
  - apply numbered_boot_absent.
  - discriminate.
  - vm_compute. repeat constructor.
Defined.

(** X8 when alice writes to r1, where bob is. *)
Lemma X8_handle_message_one_event_witness :
  exists s' out,
    handle_message 1 "t1" WriteOk alice_hello bob_inside = (Ok tt, s') /\
    outbox s' = outbox bob_inside ++ [out] /\ rooms s' = rooms bob_inside /\
    ((event out = "error" /\ dest out = {[1]}) \/
     (exists r, field alice_hello "room" = VStr r /\
                out = Delivery "message" alice_hello (members r bob_inside))).
Proof.
  apply (X8_handle_message_one_event 1 "t1" WriteOk alice_hello bob_inside).
  left. by exists "r1".
Defined.

(** X9 on alice's join event. *)
Lemma X9_join_and_leave_never_raise_witness :
  (handle_join 1 "t1" (VDict alice_joins) bob_inside).1 = Ok tt /\
  exists record, (handle_leave 1 "t1" (VDict alice_joins) bob_inside).1 = Ok record.
Proof.
  apply (X9_join_and_leave_never_raise 1 "t1" (VDict alice_joins) bob_inside).
  left. by exists "r1".
Defined.

(** X10 when alice's save fails and bob joins afterwards. *)
Lemma X10_unsaved_message_replayed_to_joiner_witness :
  let s1 := (handle_message 1 "t0" (OpenFails OSError) (VDict alice_fields)
               (boot None ReadOk)).2 in
  outbox s1 =
    outbox (boot None ReadOk)
      ++ [Delivery "error" (error_payload "Failed to save message") {[1]}] /\
  message_file s1 = message_file (boot None ReadOk) /\
  exists s2,
    handle_join 2 "t1" (VDict bob_joins) s1 = (Ok tt, s2) /\
    Delivery "chat_history"
      (VList ([] ++ [message_data (VStr "alice") (VStr "hello") "t0" 0])) {[2]}
    ∈ outbox s2.
Proof.
  exact (X10_unsaved_message_replayed_to_joiner 1 2 "t0" "t1" OSError
           alice_fields bob_joins "r1" (boot None ReadOk) ∅ []
           eq_refl eq_refl eq_refl eq_refl eq_refl eq_refl eq_refl eq_refl).
Defined.

(** X11 on an event with a room and an empty name. *)
Lemma X11_join_leave_reject_incomplete_witness :
  (exists s' txt,
     handle_join 1 "t0" (join_data "r1" "") bob_inside = (Ok tt, s') /\
     rooms s' = rooms bob_inside /\ messages s' = messages bob_inside /\
     outbox s' = outbox bob_inside ++ [Delivery "error" (error_payload txt) {[1]}]) /\
  (exists s' txt record,
     handle_leave 1 "t0" (join_data "r1" "") bob_inside = (Ok record, s') /\
     rooms s' = rooms bob_inside /\ messages s' = messages bob_inside /\
     outbox s' = outbox bob_inside ++ [Delivery "error" (error_payload txt) {[1]}]).
Proof.
  apply (X11_join_leave_reject_incomplete 1 "t0" (join_data "r1" "") bob_inside).
  right. reflexivity.
Defined.

(** X13 when alice joins on a store that is a list. *)
Lemma X13_join_on_broken_store_witness :
  exists s',
    handle_join 1 "t0" (VDict alice_joins) array_store = (Ok tt, s') /\
    outbox s' =
      outbox array_store
        ++ [Delivery "error" (error_payload "Failed to join room") {[1]}] /\
    members "r1" s' = {[1]} ∪ members "r1" array_store.
Proof.
  apply (X13_join_on_broken_store 1 "t0" alice_joins "r1" array_store);
    [reflexivity..|]. intros store. discriminate.
Defined.

(** X14 when bob leaves r1. *)
Lemma X14_leave_notice_to_remaining_witness :
  exists s',
    handle_leave 2 "t1" (VDict bob_joins) bob_inside
      = (Ok (Some (log_left (default VNone (bob_joins !! "name")) (VStr "r1"))), s') /\
    outbox s' =
      outbox bob_inside
        ++ [Delivery "message" (leave_message (default VNone (bob_joins !! "name")) "t1")
              (members "r1" bob_inside ∖ {[2]})] /\
    members "r1" s' = members "r1" bob_inside ∖ {[2]} /\
    (forall r', r' <> "r1" -> members r' s' = members r' bob_inside) /\
    messages s' = messages bob_inside.
Proof.
  apply (X14_leave_notice_to_remaining 2 "t1" bob_joins "r1" bob_inside); reflexivity.
Defined.

(** X15 when alice joins r1 and leaves it. *)
Lemma X15_join_then_leave_witness :
  let s2 := (handle_leave 1 "t2" (VDict alice_joins)
               (handle_join 1 "t1" (VDict alice_joins) bob_inside).2).2 in
  (forall r', members r' s2 = if decide (r' = "r1") then members "r1" bob_inside ∖ {[1]}
                              else members r' bob_inside) /\
  (1 ∉ members "r1" bob_inside -> forall r', members r' s2 = members r' bob_inside).
Proof.
  apply (X15_join_then_leave 1 "t1" "t2" alice_joins alice_joins "r1" bob_inside);
    reflexivity.
Defined.

(** X16 when alice joins r1 twice. *)
Lemma X16_join_membership_witness :
  let s1 := (handle_join 1 "t1" (VDict alice_joins) bob_inside).2 in
  let s2 := (handle_join 1 "t2" (VDict alice_joins) s1).2 in
  (forall r', members r' s1 = if decide (r' = "r1") then {[1]} ∪ members "r1" bob_inside
                              else members r' bob_inside) /\
  (forall r', members r' s2 = members r' s1).
Proof.
  apply (X16_join_membership 1 "t1" "t2" alice_joins "r1" bob_inside); reflexivity.
Defined.

End MoreScenarios.
